(** * Tutorial02_Cube: a shallow embedding of the sample driver

    The driver of [src/Tutorial02_Cube.cpp] is glue around an external
    rendering engine.  The engine's arithmetic (binary32 [float], the
    [float4x4] algebra of BasicMath) and the [SampleBase] class are not part
    of the repository: they are taken as interfaces ([Scalars], [Engine]).
    The driver's own code (the literal vertex and index tables, the buffer
    descriptions, the order of the calls, the member that is assigned) is
    embedded as written, as actions of a small state monad over the driver
    object and the state of the device and its immediate context. *)

From Stdlib Require Import ZArith NArith QArith Reals Lra String List.
From Stdlib Require Import SpecFloat.
From stdpp Require Import base list.
Import ListNotations.

Local Open Scope string_scope.
Local Open Scope N_scope.

(** ** Scalars of the engine *)

(** [float] and [double] as the compiler and the C library provide them.
    A signed decimal constant of the source is a [Q]; [double_lit] and
    [float_lit] round it to the type of the literal, [float_of_double] is
    the narrowing conversion, [float_of_int] the conversion of an integer
    constant. *)
Class Scalars : Type := {
  float : Type;
  double : Type;
  float_of_double : double -> float;
  float_of_int : Z -> float;
  double_lit : Q -> double;
  float_lit : Q -> float;
  fneg : float -> float;
  fmul : float -> float -> float;
  fdiv : float -> float -> float;
  PI_F : float
}.

Section Vectors.
Context {S : Scalars}.

Record float3 : Type := mk_float3 { x3 : float; y3 : float; z3 : float }.
Record float4 : Type :=
  mk_float4 { x4 : float; y4 : float; z4 : float; w4 : float }.

(** [struct Vertex { float3 pos; float4 color; }] *)
Record Vertex : Type := mk_Vertex { pos : float3; color : float4 }.
End Vectors.

(** Sizes in bytes.  Every member is a binary32 [float], so the structures
    have no padding. *)
Definition sizeof_float : N := 4.
Definition sizeof_Uint32 : N := 4.
Definition sizeof_float3 : N := 3 * sizeof_float.
Definition sizeof_float4 : N := 4 * sizeof_float.
Definition sizeof_float4x4 : N := 16 * sizeof_float.
Definition sizeof_Vertex : N := sizeof_float3 + sizeof_float4.

(** ** Enumerations of the engine used by the driver *)

Inductive USAGE : Type :=
  USAGE_IMMUTABLE | USAGE_DEFAULT | USAGE_DYNAMIC | USAGE_STAGING.

Inductive BIND_FLAGS : Type :=
  BIND_NONE | BIND_VERTEX_BUFFER | BIND_INDEX_BUFFER | BIND_UNIFORM_BUFFER.

Inductive CPU_ACCESS_FLAGS : Type :=
  CPU_ACCESS_NONE | CPU_ACCESS_READ | CPU_ACCESS_WRITE.

Inductive SHADER_TYPE : Type := SHADER_TYPE_VERTEX | SHADER_TYPE_PIXEL.

Inductive SHADER_SOURCE_LANGUAGE : Type :=
  SHADER_SOURCE_LANGUAGE_DEFAULT | SHADER_SOURCE_LANGUAGE_HLSL.

Inductive SHADER_COMPILE_FLAGS : Type :=
  SHADER_COMPILE_FLAG_NONE | SHADER_COMPILE_FLAG_PACK_MATRIX_ROW_MAJOR.

Inductive PIPELINE_TYPE : Type := PIPELINE_TYPE_GRAPHICS | PIPELINE_TYPE_COMPUTE.

Inductive PRIMITIVE_TOPOLOGY : Type :=
  PRIMITIVE_TOPOLOGY_UNDEFINED | PRIMITIVE_TOPOLOGY_TRIANGLE_LIST.

Inductive CULL_MODE : Type := CULL_MODE_NONE | CULL_MODE_FRONT | CULL_MODE_BACK.

Inductive VALUE_TYPE : Type := VT_FLOAT32 | VT_UINT32.

Inductive SHADER_RESOURCE_VARIABLE_TYPE : Type :=
  SHADER_RESOURCE_VARIABLE_TYPE_STATIC
| SHADER_RESOURCE_VARIABLE_TYPE_MUTABLE
| SHADER_RESOURCE_VARIABLE_TYPE_DYNAMIC.

Inductive RESOURCE_STATE_TRANSITION_MODE : Type :=
  RESOURCE_STATE_TRANSITION_MODE_NONE
| RESOURCE_STATE_TRANSITION_MODE_TRANSITION
| RESOURCE_STATE_TRANSITION_MODE_VERIFY.

Inductive CLEAR_DEPTH_STENCIL_FLAGS : Type := CLEAR_DEPTH_FLAG | CLEAR_STENCIL_FLAG.

Inductive MAP_TYPE : Type := MAP_READ | MAP_WRITE | MAP_READ_WRITE.

Inductive MAP_FLAGS : Type := MAP_FLAG_NONE | MAP_FLAG_DISCARD.

Inductive SET_VERTEX_BUFFERS_FLAGS : Type :=
  SET_VERTEX_BUFFERS_FLAG_NONE | SET_VERTEX_BUFFERS_FLAG_RESET.

Inductive DRAW_FLAGS : Type := DRAW_FLAG_NONE | DRAW_FLAG_VERIFY_ALL.

(** ** The engine interface *)

(** What the driver uses of BasicMath, ColorConversion and of its base class
    [SampleBase].  [SampleBase] stands for the base-class subobject together
    with what its accessors read through it (the description of the swap
    chain, the device information). *)
Class Engine {S : Scalars} : Type := {
  float4x4 : Type;
  mul4x4 : float4x4 -> float4x4 -> float4x4;
  Identity : float4x4;
  RotationX : float -> float4x4;
  RotationY : float -> float4x4;
  Translation : float -> float -> float -> float4x4;
  LinearToSRGB : float4 -> float4;
  TEXTURE_FORMAT : Type;
  ITextureView : Type;
  SampleInitInfo : Type;
  SampleBase : Type;
  SampleBase_Initialize : SampleInitInfo -> SampleBase -> SampleBase;
  SampleBase_Update : double -> double -> SampleBase -> SampleBase;
  m_ConvertPSOutputToGamma : SampleBase -> bool;
  ColorBufferFormat : SampleBase -> TEXTURE_FORMAT;
  DepthBufferFormat : SampleBase -> TEXTURE_FORMAT;
  GetCurrentBackBufferRTV : SampleBase -> ITextureView;
  GetDepthBufferDSV : SampleBase -> ITextureView;
  GetSurfacePretransformMatrix : SampleBase -> float3 -> float4x4;
  GetAdjustedProjectionMatrix : SampleBase -> float -> float -> float -> float4x4
}.

Declare Scope mat_scope.
Delimit Scope mat_scope with mat.
Infix "**" := mul4x4 (at level 40, left associativity) : mat_scope.

(** ** Descriptions passed to the device *)

(** Engine objects are referred to by handles; a null [RefCntAutoPtr] is
    [None]. *)
Definition handle : Type := option nat.

(** [BufferDesc]; the fields the driver leaves alone keep the defaults of
    the engine's constructor. *)
Record BufferDesc : Type := mk_BufferDesc {
  Name : string;
  Size : N;
  Usage : USAGE;
  BindFlags : BIND_FLAGS;
  CPUAccessFlags : CPU_ACCESS_FLAGS
}.

Definition default_BufferDesc : BufferDesc :=
  {| Name := EmptyString; Size := 0; Usage := USAGE_DEFAULT;
     BindFlags := BIND_NONE; CPUAccessFlags := CPU_ACCESS_NONE |}.

Record ShaderCreateInfo : Type := mk_ShaderCreateInfo {
  SourceLanguage : SHADER_SOURCE_LANGUAGE;
  UseCombinedTextureSamplers : bool;
  CompileFlags : SHADER_COMPILE_FLAGS;
  Macros : list (string * string);
  pShaderSourceStreamFactory : handle;
  ShaderType : SHADER_TYPE;
  EntryPoint : string;
  ShaderName : string;
  FilePath : string
}.

(** [LayoutElement{InputIndex, BufferSlot, NumComponents, ValueType, IsNormalized}] *)
Record LayoutElement : Type := mk_LayoutElement {
  InputIndex : N;
  BufferSlot : N;
  NumComponents : N;
  ValueType : VALUE_TYPE;
  IsNormalized : bool
}.

Record DrawIndexedAttribs : Type := mk_DrawIndexedAttribs {
  NumIndices : N;
  IndexType : VALUE_TYPE;
  Flags : DRAW_FLAGS
}.

Section Model.
Context {S : Scalars} {E : Engine}.

Record GraphicsPipelineStateCreateInfo : Type := mk_PSOCreateInfo {
  PSOName : string;
  PipelineType : PIPELINE_TYPE;
  NumRenderTargets : N;
  RTVFormats0 : TEXTURE_FORMAT;
  DSVFormat : TEXTURE_FORMAT;
  PrimitiveTopology : PRIMITIVE_TOPOLOGY;
  CullMode : CULL_MODE;
  DepthEnable : bool;
  LayoutElements : list LayoutElement;
  NumElements : N;
  pVS : handle;
  pPS : handle;
  DefaultVariableType : SHADER_RESOURCE_VARIABLE_TYPE
}.

(** What a buffer holds.  Contents are kept typed; their extent in bytes
    is [sizeof_contents]. *)
Inductive BufferContents : Type :=
| NoData
| VertexArray (vs : list Vertex)
| IndexArray (ixs : list N)
| MatrixData (m : float4x4).

Definition sizeof_contents (c : BufferContents) : N :=
  match c with
  | NoData => 0
  | VertexArray vs => N.of_nat (length vs) * sizeof_Vertex
  | IndexArray ixs => N.of_nat (length ixs) * sizeof_Uint32
  | MatrixData _ => sizeof_float4x4
  end.

(** [BufferData{pData, DataSize}] *)
Record BufferData : Type := mk_BufferData {
  pData : BufferContents;
  DataSize : N
}.

Record Buffer : Type := mk_Buffer {
  buf_desc : BufferDesc;
  buf_data : BufferContents
}.

(** Objects of the device other than buffers. *)
Inductive EngineObject : Type :=
| StreamFactoryObj
| ShaderObj (ci : ShaderCreateInfo)
| PipelineObj (ci : GraphicsPipelineStateCreateInfo)
| BindingObj (pso : handle) (InitStaticResources : bool).

(** The calls the driver issues, in the order it issues them.
    [StoreMapped] is the assignment through a mapped pointer. *)
Inductive Event : Type :=
| EvCreateDefaultShaderSourceStreamFactory
| EvCreateShader (ci : ShaderCreateInfo)
| EvCreateBuffer (desc : BufferDesc) (init : option BufferData)
| EvCreateGraphicsPipelineState (ci : GraphicsPipelineStateCreateInfo)
| EvSetStaticVariable (pso : handle) (stage : SHADER_TYPE) (name : string)
    (obj : handle)
| EvCreateShaderResourceBinding (pso : handle) (InitStaticResources : bool)
| EvClearRenderTarget (rtv : ITextureView) (rgba : float4)
    (mode : RESOURCE_STATE_TRANSITION_MODE)
| EvClearDepthStencil (dsv : ITextureView) (flags : CLEAR_DEPTH_STENCIL_FLAGS)
    (depth : float) (stencil : N) (mode : RESOURCE_STATE_TRANSITION_MODE)
| EvMapBuffer (buf : handle) (type : MAP_TYPE) (flags : MAP_FLAGS)
| EvStoreMapped (buf : handle) (data : BufferContents)
| EvUnmapBuffer (buf : handle) (type : MAP_TYPE)
| EvSetVertexBuffers (StartSlot : N) (NumBuffersSet : N) (bufs : list handle)
    (offsets : list N) (mode : RESOURCE_STATE_TRANSITION_MODE)
    (flags : SET_VERTEX_BUFFERS_FLAGS)
| EvSetIndexBuffer (buf : handle) (ByteOffset : N)
    (mode : RESOURCE_STATE_TRANSITION_MODE)
| EvSetPipelineState (pso : handle)
| EvCommitShaderResources (srb : handle) (mode : RESOURCE_STATE_TRANSITION_MODE)
| EvDrawIndexed (attribs : DrawIndexedAttribs).

(** State of the device and of its immediate context: the buffers (a
    buffer handle is an index into [buffers]), the other objects, and the
    calls received so far. *)
Record EngineState : Type := mk_EngineState {
  buffers : list Buffer;
  objects : list EngineObject;
  calls : list Event
}.

(** The driver object: the base-class subobject and the members declared
    by [Tutorial02_Cube]. *)
Record Tutorial02_Cube : Type := mk_Tutorial02_Cube {
  base : SampleBase;
  m_pPSO : handle;
  m_CubeVertexBuffer : handle;
  m_CubeIndexBuffer : handle;
  m_VSConstants : handle;
  m_pSRB : handle;
  m_WorldViewProjMatrix : float4x4
}.

Record World : Type := mk_World {
  driver : Tutorial02_Cube;
  engine : EngineState
}.

(** ** The state monad of the embedding *)

Definition M (A : Type) : Type := World -> A * World.

Definition ret {A : Type} (a : A) : M A := fun w => (a, w).

Definition bind {A B : Type} (m : M A) (k : A -> M B) : M B :=
  fun w => let (a, w') := m w in k a w'.

Definition exec {A : Type} (m : M A) (w : World) : World := snd (m w).

Definition get_this : M Tutorial02_Cube := fun w => (driver w, w).

Definition modify_this (f : Tutorial02_Cube -> Tutorial02_Cube) : M unit :=
  fun w => let (d, e) := w in (tt, {| driver := f d; engine := e |}).

Definition modify_engine (f : EngineState -> EngineState) : M unit :=
  fun w => let (d, e) := w in (tt, {| driver := d; engine := f e |}).

Definition get_engine : M EngineState := fun w => (engine w, w).
End Model.

Notation "'let*' x ':=' m 'in' k" := (bind m (fun x => k))
  (at level 10, x name, m at level 100, k at level 200).
Notation "m ';;' k" := (bind m (fun _ => k))
  (at level 100, k at level 200, right associativity).

Arguments float_of_int {_} _%_Z.
Arguments double_lit {_} _%_Q.
Arguments float_lit {_} _%_Q.

(** ** The device and its immediate context *)

(** The calls of the engine as the driver sees them: every call is recorded
    in [calls]; creating an object appends it to its table and returns its
    handle; a store through a mapped pointer replaces the data of the mapped
    buffer.  The model is permissive: it refuses no call, so what the driver
    never does is a property of the driver and not of the model. *)
Section Device.
Context {S : Scalars} {E : Engine}.

Definition log (ev : Event) : M unit :=
  modify_engine (fun e =>
    {| buffers := buffers e; objects := objects e; calls := calls e ++ [ev] |}).

Definition new_object (o : EngineObject) : M handle :=
  let* e := get_engine in
  modify_engine (fun e =>
    {| buffers := buffers e; objects := objects e ++ [o]; calls := calls e |}) ;;
  ret (Some (length (objects e))).

Definition new_buffer (b : Buffer) : M handle :=
  let* e := get_engine in
  modify_engine (fun e =>
    {| buffers := buffers e ++ [b]; objects := objects e; calls := calls e |}) ;;
  ret (Some (length (buffers e))).

Definition store_buffer (buf : handle) (data : BufferContents)
    (bs : list Buffer) : list Buffer :=
  match buf with
  | Some i => alter (fun b => {| buf_desc := buf_desc b; buf_data := data |}) i bs
  | None => bs
  end.

Definition CreateDefaultShaderSourceStreamFactory : M handle :=
  log EvCreateDefaultShaderSourceStreamFactory ;;
  new_object StreamFactoryObj.

Definition CreateShader (ci : ShaderCreateInfo) : M handle :=
  log (EvCreateShader ci) ;;
  new_object (ShaderObj ci).

Definition CreateBuffer (desc : BufferDesc) (init : option BufferData) : M handle :=
  log (EvCreateBuffer desc init) ;;
  new_buffer {| buf_desc := desc;
                buf_data := match init with
                            | Some d => pData d
                            | None => NoData
                            end |}.

Definition CreateGraphicsPipelineState (ci : GraphicsPipelineStateCreateInfo)
    : M handle :=
  log (EvCreateGraphicsPipelineState ci) ;;
  new_object (PipelineObj ci).

Definition SetStaticVariableByName (pso : handle) (stage : SHADER_TYPE)
    (name : string) (obj : handle) : M unit :=
  log (EvSetStaticVariable pso stage name obj).

Definition CreateShaderResourceBinding (pso : handle)
    (InitStaticResources : bool) : M handle :=
  log (EvCreateShaderResourceBinding pso InitStaticResources) ;;
  new_object (BindingObj pso InitStaticResources).

Definition ClearRenderTarget (rtv : ITextureView) (rgba : float4)
    (mode : RESOURCE_STATE_TRANSITION_MODE) : M unit :=
  log (EvClearRenderTarget rtv rgba mode).

Definition ClearDepthStencil (dsv : ITextureView)
    (flags : CLEAR_DEPTH_STENCIL_FLAGS) (depth : float) (stencil : N)
    (mode : RESOURCE_STATE_TRANSITION_MODE) : M unit :=
  log (EvClearDepthStencil dsv flags depth stencil mode).

Definition MapBuffer (buf : handle) (type : MAP_TYPE) (flags : MAP_FLAGS)
    : M unit :=
  log (EvMapBuffer buf type flags).

Definition StoreMapped (buf : handle) (data : BufferContents) : M unit :=
  log (EvStoreMapped buf data) ;;
  modify_engine (fun e =>
    {| buffers := store_buffer buf data (buffers e);
       objects := objects e; calls := calls e |}).

Definition UnmapBuffer (buf : handle) (type : MAP_TYPE) : M unit :=
  log (EvUnmapBuffer buf type).

Definition SetVertexBuffers (StartSlot NumBuffersSet : N) (bufs : list handle)
    (offsets : list N) (mode : RESOURCE_STATE_TRANSITION_MODE)
    (flags : SET_VERTEX_BUFFERS_FLAGS) : M unit :=
  log (EvSetVertexBuffers StartSlot NumBuffersSet bufs offsets mode flags).

Definition SetIndexBuffer (buf : handle) (ByteOffset : N)
    (mode : RESOURCE_STATE_TRANSITION_MODE) : M unit :=
  log (EvSetIndexBuffer buf ByteOffset mode).

Definition SetPipelineState (pso : handle) : M unit :=
  log (EvSetPipelineState pso).

Definition CommitShaderResources (srb : handle)
    (mode : RESOURCE_STATE_TRANSITION_MODE) : M unit :=
  log (EvCommitShaderResources srb mode).

Definition DrawIndexed (attribs : DrawIndexedAttribs) : M unit :=
  log (EvDrawIndexed attribs).

(** Assignment to a member of the driver object. *)
Definition set_base (b : SampleBase) (d : Tutorial02_Cube) : Tutorial02_Cube :=
  {| base := b; m_pPSO := m_pPSO d;
     m_CubeVertexBuffer := m_CubeVertexBuffer d;
     m_CubeIndexBuffer := m_CubeIndexBuffer d;
     m_VSConstants := m_VSConstants d; m_pSRB := m_pSRB d;
     m_WorldViewProjMatrix := m_WorldViewProjMatrix d |}.

Definition set_m_pPSO (h : handle) (d : Tutorial02_Cube) : Tutorial02_Cube :=
  {| base := base d; m_pPSO := h;
     m_CubeVertexBuffer := m_CubeVertexBuffer d;
     m_CubeIndexBuffer := m_CubeIndexBuffer d;
     m_VSConstants := m_VSConstants d; m_pSRB := m_pSRB d;
     m_WorldViewProjMatrix := m_WorldViewProjMatrix d |}.

Definition set_m_CubeVertexBuffer (h : handle) (d : Tutorial02_Cube)
    : Tutorial02_Cube :=
  {| base := base d; m_pPSO := m_pPSO d;
     m_CubeVertexBuffer := h;
     m_CubeIndexBuffer := m_CubeIndexBuffer d;
     m_VSConstants := m_VSConstants d; m_pSRB := m_pSRB d;
     m_WorldViewProjMatrix := m_WorldViewProjMatrix d |}.

Definition set_m_CubeIndexBuffer (h : handle) (d : Tutorial02_Cube)
    : Tutorial02_Cube :=
  {| base := base d; m_pPSO := m_pPSO d;
     m_CubeVertexBuffer := m_CubeVertexBuffer d;
     m_CubeIndexBuffer := h;
     m_VSConstants := m_VSConstants d; m_pSRB := m_pSRB d;
     m_WorldViewProjMatrix := m_WorldViewProjMatrix d |}.

Definition set_m_VSConstants (h : handle) (d : Tutorial02_Cube)
    : Tutorial02_Cube :=
  {| base := base d; m_pPSO := m_pPSO d;
     m_CubeVertexBuffer := m_CubeVertexBuffer d;
     m_CubeIndexBuffer := m_CubeIndexBuffer d;
     m_VSConstants := h; m_pSRB := m_pSRB d;
     m_WorldViewProjMatrix := m_WorldViewProjMatrix d |}.

Definition set_m_pSRB (h : handle) (d : Tutorial02_Cube) : Tutorial02_Cube :=
  {| base := base d; m_pPSO := m_pPSO d;
     m_CubeVertexBuffer := m_CubeVertexBuffer d;
     m_CubeIndexBuffer := m_CubeIndexBuffer d;
     m_VSConstants := m_VSConstants d; m_pSRB := h;
     m_WorldViewProjMatrix := m_WorldViewProjMatrix d |}.

Definition set_m_WorldViewProjMatrix (m : float4x4) (d : Tutorial02_Cube)
    : Tutorial02_Cube :=
  {| base := base d; m_pPSO := m_pPSO d;
     m_CubeVertexBuffer := m_CubeVertexBuffer d;
     m_CubeIndexBuffer := m_CubeIndexBuffer d;
     m_VSConstants := m_VSConstants d; m_pSRB := m_pSRB d;
     m_WorldViewProjMatrix := m |}.
End Device.

(** ** The driver *)

Section Driver.
Context {S : Scalars} {E : Engine}.
Local Open Scope mat_scope.

(** A constant written as an integer, and one written as a [double]
    literal, where a [float] is expected. *)
Definition iconst (z : Z) : float := float_of_int z.
Definition dconst (q : Q) : float := float_of_double (double_lit q).

Definition CreatePipelineState : M unit :=
  let* this := get_this in
  let ShaderCI_SourceLanguage := SHADER_SOURCE_LANGUAGE_HLSL in
  let ShaderCI_UseCombinedTextureSamplers := true in
  let ShaderCI_CompileFlags := SHADER_COMPILE_FLAG_PACK_MATRIX_ROW_MAJOR in
  let Macros_ :=
    [("CONVERT_PS_OUTPUT_TO_GAMMA",
      if m_ConvertPSOutputToGamma (base this) then "1" else "0")] in
  let* pShaderSourceFactory := CreateDefaultShaderSourceStreamFactory in
  (* Create a vertex shader *)
  let* pVS_ :=
    CreateShader
      {| SourceLanguage := ShaderCI_SourceLanguage;
         UseCombinedTextureSamplers := ShaderCI_UseCombinedTextureSamplers;
         CompileFlags := ShaderCI_CompileFlags;
         Macros := Macros_;
         pShaderSourceStreamFactory := pShaderSourceFactory;
         ShaderType := SHADER_TYPE_VERTEX;
         EntryPoint := "main";
         ShaderName := "Cube VS";
         FilePath := "cube.vsh" |} in
  (* Create dynamic uniform buffer that will store our transformation matrix *)
  let CBDesc :=
    {| Name := "VS constants CB";
       Size := sizeof_float4x4;
       Usage := USAGE_DYNAMIC;
       BindFlags := BIND_UNIFORM_BUFFER;
       CPUAccessFlags := CPU_ACCESS_WRITE |} in
  let* cb := CreateBuffer CBDesc None in
  modify_this (set_m_VSConstants cb) ;;
  (* Create a pixel shader *)
  let* pPS_ :=
    CreateShader
      {| SourceLanguage := ShaderCI_SourceLanguage;
         UseCombinedTextureSamplers := ShaderCI_UseCombinedTextureSamplers;
         CompileFlags := ShaderCI_CompileFlags;
         Macros := Macros_;
         pShaderSourceStreamFactory := pShaderSourceFactory;
         ShaderType := SHADER_TYPE_PIXEL;
         EntryPoint := "main";
         ShaderName := "Cube PS";
         FilePath := "cube.psh" |} in
  (* Define vertex shader input layout *)
  let LayoutElems :=
    [ mk_LayoutElement 0 0 3 VT_FLOAT32 false;
      mk_LayoutElement 1 0 4 VT_FLOAT32 false ] in
  let PSOCreateInfo :=
    {| PSOName := "Cube PSO";
       PipelineType := PIPELINE_TYPE_GRAPHICS;
       NumRenderTargets := 1;
       RTVFormats0 := ColorBufferFormat (base this);
       DSVFormat := DepthBufferFormat (base this);
       PrimitiveTopology := PRIMITIVE_TOPOLOGY_TRIANGLE_LIST;
       CullMode := CULL_MODE_BACK;
       DepthEnable := true;
       LayoutElements := LayoutElems;
       NumElements := N.of_nat (length LayoutElems);
       pVS := pVS_;
       pPS := pPS_;
       DefaultVariableType := SHADER_RESOURCE_VARIABLE_TYPE_STATIC |} in
  let* pso := CreateGraphicsPipelineState PSOCreateInfo in
  modify_this (set_m_pPSO pso) ;;
  let* this := get_this in
  SetStaticVariableByName (m_pPSO this) SHADER_TYPE_VERTEX "Constants"
    (m_VSConstants this) ;;
  let* srb := CreateShaderResourceBinding (m_pPSO this) true in
  modify_this (set_m_pSRB srb).

Definition forest : float4 :=
  mk_float4 (dconst 0.043137254901960784) (dconst 0.4)
            (dconst 0.13725490196078433) (iconst 1).
Definition dark : float4 :=
  mk_float4 (dconst 0.18823529411764706) (dconst 0.47843137254901963)
            (dconst 0.054901960784313725) (iconst 1).
Definition kelly : float4 :=
  mk_float4 (dconst 0.2980392156862745) (dconst 0.7333333333333333)
            (dconst 0.09019607843137255) (iconst 1).
Definition brown : float4 :=
  mk_float4 (dconst 0.549) (dconst 0.275) (dconst 0.031) (iconst 1).
Definition darkBrown : float4 :=
  mk_float4 (dconst 0.22) (dconst 0.098) (dconst 0.051) (iconst 1).

(** One initialiser [{float3{x, y, z}, c}] of the table. *)
Definition vtx (x y z : float) (c : float4) : Vertex :=
  {| pos := mk_float3 x y z; color := c |}.
End Driver.

Arguments iconst {_} _%_Z.
Arguments dconst {_} _%_Q.

Section Tables.
Context {S : Scalars} {E : Engine}.

(** [Vertex CubeVerts[54]]: the initialisers, in the order of the source. *)
Definition CubeVerts : list Vertex :=
  [
    vtx (iconst 0) (dconst 1.25) (iconst 0) kelly;
    vtx (iconst 0) (dconst 0.5) (dconst 0.5) kelly;
    vtx (dconst 0.125) (dconst 0.5) (dconst 0.21650635) forest;
    vtx (dconst 0.4330127) (dconst 0.5) (dconst 0.25) kelly;
    vtx (dconst 0.25) (dconst 0.5) (iconst 0) forest;
    vtx (dconst 0.4330127) (dconst 0.5) (dconst (-0.25)) kelly;
    vtx (dconst 0.125) (dconst 0.5) (dconst (-0.21650635)) forest;
    vtx (iconst 0) (dconst 0.5) (dconst (-0.5)) kelly;
    vtx (dconst (-0.125)) (dconst 0.5) (dconst (-0.21650635)) forest;
    vtx (dconst (-0.4330127)) (dconst 0.5) (dconst (-0.25)) kelly;
    vtx (dconst (-0.25)) (dconst 0.5) (iconst 0) forest;
    vtx (dconst (-0.4330127)) (dconst 0.5) (dconst 0.25) kelly;
    vtx (dconst (-0.125)) (dconst 0.5) (dconst 0.21650635) forest;
    vtx (iconst 0) (dconst 0.75) (iconst 0) dark;
    vtx (iconst 0) (iconst 0) (dconst 0.375) forest;
    vtx (dconst 0.375) (iconst 0) (dconst 0.64951905) kelly;
    vtx (dconst 0.32475953) (iconst 0) (dconst 0.1875) forest;
    vtx (dconst 0.75) (iconst 0) (iconst 0) kelly;
    vtx (dconst 0.32475953) (iconst 0) (dconst (-0.1875)) forest;
    vtx (dconst 0.375) (iconst 0) (dconst (-0.64951905)) kelly;
    vtx (iconst 0) (iconst 0) (dconst (-0.375)) forest;
    vtx (dconst (-0.375)) (iconst 0) (dconst (-0.64951905)) kelly;
    vtx (dconst (-0.32475953)) (iconst 0) (dconst (-0.1875)) forest;
    vtx (dconst (-0.75)) (iconst 0) (iconst 0) kelly;
    vtx (dconst (-0.32475953)) (iconst 0) (dconst 0.1875) forest;
    vtx (dconst (-0.375)) (iconst 0) (dconst 0.64951905) kelly;
    vtx (iconst 0) (dconst 0.25) (iconst 0) dark;
    vtx (dconst 0.0) (dconst (-0.5)) (dconst 0.9) kelly;
    vtx (dconst 0.225) (dconst (-0.5)) (dconst 0.38971143) forest;
    vtx (dconst 0.779423) (dconst (-0.5)) (dconst 0.45) kelly;
    vtx (dconst 0.45) (dconst (-0.5)) (iconst 0) forest;
    vtx (dconst 0.779423) (dconst (-0.5)) (dconst (-0.45)) kelly;
    vtx (dconst 0.225) (dconst (-0.5)) (dconst (-0.38971143)) forest;
    vtx (iconst 0) (dconst (-0.5)) (dconst (-0.9)) kelly;
    vtx (dconst (-0.225)) (dconst (-0.5)) (dconst (-0.38971143)) forest;
    vtx (dconst (-0.779423)) (dconst (-0.5)) (dconst (-0.45)) kelly;
    vtx (dconst (-0.45)) (dconst (-0.5)) (iconst 0) forest;
    vtx (dconst (-0.779423)) (dconst (-0.5)) (dconst 0.45) kelly;
    vtx (dconst (-0.225)) (dconst (-0.5)) (dconst 0.38971143) forest;
    vtx (iconst 0) (dconst (-0.5)) (dconst 0.1) brown;
    vtx (dconst (-0.0866025403784)) (dconst (-0.5)) (dconst (-0.05)) brown;
    vtx (dconst 0.0866025403784) (dconst (-0.5)) (dconst (-0.05)) brown;
    vtx (iconst 0) (iconst (-1)) (dconst 0.1) brown;
    vtx (dconst (-0.0866025403784)) (iconst (-1)) (dconst (-0.05)) brown;
    vtx (dconst 0.0866025403784) (iconst (-1)) (dconst (-0.05)) brown;
    vtx (dconst 0.0433012701892) (iconst (-1)) (dconst 0.025) brown;
    vtx (dconst (-0.0433012701892)) (iconst (-1)) (dconst 0.025) brown;
    vtx (iconst 0) (iconst (-1)) (dconst (-0.05)) brown;
    vtx (iconst 0) (iconst (-1)) (dconst 0.3) darkBrown;
    vtx (dconst (-0.259808)) (iconst (-1)) (dconst (-0.15)) darkBrown;
    vtx (dconst 0.259808) (iconst (-1)) (dconst (-0.15)) darkBrown;
    vtx (iconst 0) (dconst (-0.8)) (dconst 0.1) brown;
    vtx (dconst (-0.0866025403784)) (dconst (-0.8)) (dconst (-0.05)) brown;
    vtx (dconst 0.0866025403784) (dconst (-0.8)) (dconst (-0.05)) brown
  ].

(** The declared extent of the array, [sizeof(CubeVerts)]. *)
Definition CubeVerts_extent : N := 54.
Definition sizeof_CubeVerts : N := CubeVerts_extent * sizeof_Vertex.

(** [constexpr Uint32 Indices[]]: the extent is the number of initialisers. *)
Definition Indices : list N :=
  [
    0; 1; 2;
    0; 2; 3;
    0; 3; 4;
    0; 4; 5;
    0; 5; 6;
    0; 6; 7;
    0; 7; 8;
    0; 8; 9;
    0; 9; 10;
    0; 10; 11;
    0; 11; 12;
    0; 12; 1;
    13; 14; 15;
    13; 15; 16;
    13; 16; 17;
    13; 17; 18;
    13; 18; 19;
    13; 19; 20;
    13; 20; 21;
    13; 21; 22;
    13; 22; 23;
    13; 23; 24;
    13; 24; 25;
    13; 25; 14;
    26; 27; 28; 26; 28; 29; 26; 29; 30; 26; 30; 31; 26; 31; 32; 26; 32; 33; 26; 33; 34; 26; 34; 35; 26; 35; 36; 26; 36; 37; 26; 37; 38; 26; 38; 27;
    39; 40; 42;
    42; 40; 43;
    41; 39; 42;
    41; 42; 44;
    41; 44; 40;
    40; 44; 43;
    51; 46; 48;
    51; 48; 45;
    52; 49; 46;
    52; 47; 49;
    53; 45; 50;
    53; 50; 47
  ].

Definition sizeof_Indices : N := N.of_nat (length Indices) * sizeof_Uint32.
End Tables.

Section Methods.
Context {S : Scalars} {E : Engine}.
Local Open Scope mat_scope.

Definition CreateVertexBuffer : M unit :=
  (* Create a vertex buffer that stores cube vertices *)
  let VertBuffDesc :=
    {| Name := "Cube vertex buffer";
       Size := sizeof_CubeVerts;
       Usage := USAGE_IMMUTABLE;
       BindFlags := BIND_VERTEX_BUFFER;
       CPUAccessFlags := CPUAccessFlags default_BufferDesc |} in
  let VBData :=
    {| pData := VertexArray CubeVerts; DataSize := sizeof_CubeVerts |} in
  let* vb := CreateBuffer VertBuffDesc (Some VBData) in
  modify_this (set_m_CubeVertexBuffer vb).

Definition CreateIndexBuffer : M unit :=
  let IndBuffDesc :=
    {| Name := "Cube index buffer";
       Size := sizeof_Indices;
       Usage := USAGE_IMMUTABLE;
       BindFlags := BIND_INDEX_BUFFER;
       CPUAccessFlags := CPUAccessFlags default_BufferDesc |} in
  let IBData :=
    {| pData := IndexArray Indices; DataSize := sizeof_Indices |} in
  let* ib := CreateBuffer IndBuffDesc (Some IBData) in
  modify_this (set_m_CubeIndexBuffer ib).

Definition Initialize (InitInfo : SampleInitInfo) : M unit :=
  modify_this (fun d => set_base (SampleBase_Initialize InitInfo (base d)) d) ;;
  CreatePipelineState ;;
  CreateVertexBuffer ;;
  CreateIndexBuffer.

(** [MapHelper<float4x4> CBConstants(ctx, buf, type, flags);
     *CBConstants = m;] and the end of the helper's scope. *)
Definition MapHelper_store (buf : handle) (type : MAP_TYPE) (flags : MAP_FLAGS)
    (m : float4x4) : M unit :=
  MapBuffer buf type flags ;;
  StoreMapped buf (MatrixData m) ;;
  UnmapBuffer buf type.

(** Render a frame *)
Definition Render : M unit :=
  let* this := get_this in
  let pRTV := GetCurrentBackBufferRTV (base this) in
  let pDSV := GetDepthBufferDSV (base this) in
  (* Clear the back buffer *)
  let ClearColor :=
    mk_float4 (float_lit 0.350) (float_lit 0.350) (float_lit 0.350)
              (float_lit 1.0) in
  let ClearColor :=
    if m_ConvertPSOutputToGamma (base this)
    then LinearToSRGB ClearColor
    else ClearColor in
  ClearRenderTarget pRTV ClearColor RESOURCE_STATE_TRANSITION_MODE_TRANSITION ;;
  ClearDepthStencil pDSV CLEAR_DEPTH_FLAG (float_lit 1) 0
    RESOURCE_STATE_TRANSITION_MODE_TRANSITION ;;
  (* Map the buffer and write current world-view-projection matrix *)
  let* this := get_this in
  MapHelper_store (m_VSConstants this) MAP_WRITE MAP_FLAG_DISCARD
    (m_WorldViewProjMatrix this) ;;
  (* Bind vertex and index buffers *)
  let offset := 0 in
  let* this := get_this in
  let pBuffs := [m_CubeVertexBuffer this] in
  SetVertexBuffers 0 1 pBuffs [offset]
    RESOURCE_STATE_TRANSITION_MODE_TRANSITION SET_VERTEX_BUFFERS_FLAG_RESET ;;
  SetIndexBuffer (m_CubeIndexBuffer this) 0
    RESOURCE_STATE_TRANSITION_MODE_TRANSITION ;;
  (* Set the pipeline state *)
  SetPipelineState (m_pPSO this) ;;
  CommitShaderResources (m_pSRB this)
    RESOURCE_STATE_TRANSITION_MODE_TRANSITION ;;
  let DrawAttrs :=
    {| NumIndices := 144; IndexType := VT_UINT32; Flags := DRAW_FLAG_VERIFY_ALL |} in
  DrawIndexed DrawAttrs.

Definition Update (CurrTime ElapsedTime : double) : M unit :=
  modify_this (fun d =>
    set_base (SampleBase_Update CurrTime ElapsedTime (base d)) d) ;;
  (* Apply rotation *)
  let CubeModelTransform :=
    RotationY (fmul (float_of_double CurrTime) (float_lit 0.5))
    ** RotationX (fmul (fneg PI_F) (float_lit 0.1)) in
  (* Camera is at (0, 0, -5) looking along the Z axis *)
  let View := Translation (float_lit 0) (float_lit 0.25) (float_lit 5.0) in
  let* this := get_this in
  (* Get pretransform matrix that rotates the scene according the surface orientation *)
  let SrfPreTransform :=
    GetSurfacePretransformMatrix (base this)
      (mk_float3 (iconst 0) (iconst 0) (iconst 1)) in
  (* Get projection matrix adjusted to the current screen orientation *)
  let Proj :=
    GetAdjustedProjectionMatrix (base this)
      (fdiv PI_F (float_lit 4.0)) (float_lit 0.1) (float_lit 100) in
  (* Compute world-view-projection matrix *)
  modify_this
    (set_m_WorldViewProjMatrix
       (CubeModelTransform ** View ** SrfPreTransform ** Proj)).

(** The application loop after [Initialize]: each frame is an [Update] with
    the current and the elapsed time, followed by a [Render]. *)
Definition frame (t : double * double) : M unit :=
  Update (fst t) (snd t) ;; Render.

Definition run_frames (ts : list (double * double)) (w : World) : World :=
  fold_left (fun w t => exec (frame t) w) ts w.

(** The calls received by the engine while [m] runs from [w]. *)
Definition issued {A : Type} (m : M A) (w : World) : list Event :=
  drop (length (calls (engine w))) (calls (engine (exec m w))).

Definition is_draw (ev : Event) : bool :=
  match ev with EvDrawIndexed _ => true | _ => false end.

Definition is_store (ev : Event) : bool :=
  match ev with EvStoreMapped _ _ => true | _ => false end.

(** Whether a call maps or stores into the buffer [i]. *)
Definition touches (i : nat) (ev : Event) : bool :=
  match ev with
  | EvMapBuffer (Some j) _ _ | EvStoreMapped (Some j) _ => Nat.eqb i j
  | _ => false
  end.
End Methods.

(** ** The composition the specification names for time 0 *)

Section SpecWords.
Context {S : Scalars} {E : Engine}.
Local Open Scope mat_scope.

(** The camera translation and the projection of [Update], by name. *)
Definition View_matrix : float4x4 :=
  Translation (float_lit 0) (float_lit 0.25) (float_lit 5.0).

Definition SrfPreTransform_matrix (b : SampleBase) : float4x4 :=
  GetSurfacePretransformMatrix b (mk_float3 (iconst 0) (iconst 0) (iconst 1)).

Definition Proj_matrix (b : SampleBase) : float4x4 :=
  GetAdjustedProjectionMatrix b
    (fdiv PI_F (float_lit 4.0)) (float_lit 0.1) (float_lit 100).

(** Following the specification's sentence on time 0: an identity rotation,
    the fixed camera translation and the fixed projection, composed. *)
Definition spec_time_zero_composition (b : SampleBase) : float4x4 :=
  Identity ** View_matrix ** Proj_matrix b.
End SpecWords.

(** ** An exact-arithmetic interpretation of the engine interface *)

(** Real numbers in place of binary32, the row-vector matrices of BasicMath,
    a swap chain in the identity orientation.  It serves where a statement
    needs particular matrices: no rounding enters, so what fails here fails
    for a reason that is not rounding. *)
Module RealModel.
Local Open Scope R_scope.

#[export] Instance real_scalars : Scalars := {|
  float := R;
  double := R;
  float_of_double := fun d => d;
  float_of_int := IZR;
  double_lit := Q2R;
  float_lit := Q2R;
  fneg := Ropp;
  fmul := Rmult;
  fdiv := Rdiv;
  PI_F := PI
|}.

Record vec4 : Type := V4 { c0 : R; c1 : R; c2 : R; c3 : R }.
Record mat4 : Type := M4 { r0 : vec4; r1 : vec4; r2 : vec4; r3 : vec4 }.

(** The row vector [v] times the matrix [m]. *)
Definition vec_mat (v : vec4) (m : mat4) : vec4 :=
  V4 (c0 v * c0 (r0 m) + c1 v * c0 (r1 m) + c2 v * c0 (r2 m) + c3 v * c0 (r3 m))
     (c0 v * c1 (r0 m) + c1 v * c1 (r1 m) + c2 v * c1 (r2 m) + c3 v * c1 (r3 m))
     (c0 v * c2 (r0 m) + c1 v * c2 (r1 m) + c2 v * c2 (r2 m) + c3 v * c2 (r3 m))
     (c0 v * c3 (r0 m) + c1 v * c3 (r1 m) + c2 v * c3 (r2 m) + c3 v * c3 (r3 m)).

Definition mat_mul (a b : mat4) : mat4 :=
  M4 (vec_mat (r0 a) b) (vec_mat (r1 a) b) (vec_mat (r2 a) b) (vec_mat (r3 a) b).

Definition mat_identity : mat4 :=
  M4 (V4 1 0 0 0) (V4 0 1 0 0) (V4 0 0 1 0) (V4 0 0 0 1).

Definition mat_rotation_x (a : R) : mat4 :=
  M4 (V4 1 0 0 0)
     (V4 0 (cos a) (sin a) 0)
     (V4 0 (- sin a) (cos a) 0)
     (V4 0 0 0 1).

Definition mat_rotation_y (a : R) : mat4 :=
  M4 (V4 (cos a) 0 (- sin a) 0)
     (V4 0 1 0 0)
     (V4 (sin a) 0 (cos a) 0)
     (V4 0 0 0 1).

Definition mat_translation (x y z : R) : mat4 :=
  M4 (V4 1 0 0 0) (V4 0 1 0 0) (V4 0 0 1 0) (V4 x y z 1).

(** Perspective projection with depth in [0, 1]. *)
Definition mat_projection (aspect fov zn zf : R) : mat4 :=
  let YScale := 1 / tan (fov / 2) in
  let XScale := YScale / aspect in
  M4 (V4 XScale 0 0 0)
     (V4 0 YScale 0 0)
     (V4 0 0 (zf / (zf - zn)) 1)
     (V4 0 0 (- zn * zf / (zf - zn)) 0).

Definition linear_to_srgb (x : R) : R :=
  if Rle_dec x (Q2R 0.0031308)
  then x * Q2R 12.92
  else Q2R 1.055 * Rpower x (1 / Q2R 2.4) - Q2R 0.055.

(** The base-class subobject: the gamma flag, the aspect ratio and the
    formats and views of the swap chain. *)
Record real_base : Type := mk_real_base {
  rb_gamma : bool;
  rb_aspect : R;
  rb_color_format : N;
  rb_depth_format : N;
  rb_rtv : N;
  rb_dsv : N
}.

#[export] Instance real_engine : Engine := {|
  float4x4 := mat4;
  mul4x4 := mat_mul;
  Identity := mat_identity;
  RotationX := mat_rotation_x;
  RotationY := mat_rotation_y;
  Translation := mat_translation;
  LinearToSRGB := fun c =>
    mk_float4 (linear_to_srgb (x4 c)) (linear_to_srgb (y4 c))
              (linear_to_srgb (z4 c)) (w4 c);
  TEXTURE_FORMAT := N;
  ITextureView := N;
  SampleInitInfo := real_base;
  SampleBase := real_base;
  SampleBase_Initialize := fun info _ => info;
  SampleBase_Update := fun _ _ b => b;
  m_ConvertPSOutputToGamma := rb_gamma;
  ColorBufferFormat := rb_color_format;
  DepthBufferFormat := rb_depth_format;
  GetCurrentBackBufferRTV := rb_rtv;
  GetDepthBufferDSV := rb_dsv;
  GetSurfacePretransformMatrix := fun _ _ => mat_identity;
  GetAdjustedProjectionMatrix := fun b fov zn zf =>
    mat_projection (rb_aspect b) fov zn zf
|}.

Definition base0 : real_base :=
  {| rb_gamma := false; rb_aspect := 1;
     rb_color_format := 0; rb_depth_format := 0; rb_rtv := 0; rb_dsv := 1 |}.

(** A driver object before [Initialize], over an engine that holds nothing. *)
Definition world0 : World :=
  {| driver := {| base := base0; m_pPSO := None;
                  m_CubeVertexBuffer := None; m_CubeIndexBuffer := None;
                  m_VSConstants := None; m_pSRB := None;
                  m_WorldViewProjMatrix := mat_identity |};
     engine := {| buffers := []; objects := []; calls := [] |} |}.

(** The same, with another matrix left in the member. *)
Definition world1 : World :=
  {| driver := {| base := base0; m_pPSO := None;
                  m_CubeVertexBuffer := None; m_CubeIndexBuffer := None;
                  m_VSConstants := None; m_pSRB := None;
                  m_WorldViewProjMatrix := mat_translation 1 2 3 |};
     engine := {| buffers := []; objects := []; calls := [] |} |}.

End RealModel.

(** ** IEEE scalars, with the matrices left uninterpreted *)

(** [float] is binary32 and [double] binary64, as [spec_float] values with
    the operations of [SpecFloat] (round to nearest, ties to even);
    [narrow] is the conversion from binary64 to binary32.  A literal is the
    correctly rounded quotient of its numerator by its denominator, which
    is the literal's own rounding when both are representable.  The matrix
    operations of the engine are not interpreted: a matrix is the term that
    builds it, so two matrices are equal here only if they are built the
    same way. *)
Module IEEEModel.

Definition of_Z (prec emax : Z) (z : Z) : spec_float :=
  binary_normalize prec emax z 0 false.

Definition of_Q (prec emax : Z) (q : Q) : spec_float :=
  SFdiv prec emax (of_Z prec emax (Qnum q)) (of_Z prec emax (Zpos (Qden q))).

Definition narrow (d : spec_float) : spec_float :=
  match d with
  | S754_finite s m e => binary_round 24 128 s m e
  | _ => d
  end.

#[export] Instance ieee_scalars : Scalars := {|
  float := spec_float;
  double := spec_float;
  float_of_double := narrow;
  float_of_int := of_Z 24 128;
  double_lit := of_Q 53 1024;
  float_lit := of_Q 24 128;
  fneg := SFopp;
  fmul := SFmul 24 128;
  fdiv := SFdiv 24 128;
  PI_F := S754_finite false 13176795 (-22)
|}.

Inductive mexp : Type :=
| MIdentity
| MRotationX (a : spec_float)
| MRotationY (a : spec_float)
| MTranslation (x y z : spec_float)
| MMul (a b : mexp)
| MSurfacePretransform (axis : float3)
| MProjection (fov zn zf : spec_float).

(** The base class of this model has the gamma flag off, so
    [LinearToSRGB] is never called. *)
#[export] Instance ieee_engine : Engine := {|
  float4x4 := mexp;
  mul4x4 := MMul;
  Identity := MIdentity;
  RotationX := MRotationX;
  RotationY := MRotationY;
  Translation := MTranslation;
  LinearToSRGB := fun c => c;
  TEXTURE_FORMAT := unit;
  ITextureView := bool;
  SampleInitInfo := unit;
  SampleBase := unit;
  SampleBase_Initialize := fun _ b => b;
  SampleBase_Update := fun _ _ b => b;
  m_ConvertPSOutputToGamma := fun _ => false;
  ColorBufferFormat := fun _ => tt;
  DepthBufferFormat := fun _ => tt;
  GetCurrentBackBufferRTV := fun _ => false;
  GetDepthBufferDSV := fun _ => true;
  GetSurfacePretransformMatrix := fun _ axis => MSurfacePretransform axis;
  GetAdjustedProjectionMatrix := fun _ fov zn zf => MProjection fov zn zf
|}.

(** The binary64 numbers 1 and 1 + 2^-52. *)
Definition one64 : spec_float := S754_finite false 4503599627370496 (-52).
Definition next64 : spec_float := S754_finite false 4503599627370497 (-52).

(** A driver object before [Initialize], over an engine that holds
    nothing, with [m] in the transform member. *)
Definition ieee_world (m : mexp) : World :=
  {| driver := {| base := tt; m_pPSO := None;
                  m_CubeVertexBuffer := None; m_CubeIndexBuffer := None;
                  m_VSConstants := None; m_pSRB := None;
                  m_WorldViewProjMatrix := m |};
     engine := {| buffers := []; objects := []; calls := [] |} |}.

End IEEEModel.

(** ** The steps of a frame, in the specification's order *)

Section SpecSteps.
Context {S : Scalars} {E : Engine}.

(** Following the specification's sentence on [Render]: clear the render
    target and the depth buffer, write the current transform into the
    uniform buffer, bind the vertex and index buffers and the pipeline
    state, issue the indexed draw call. *)
Definition spec_Render_steps (d : Tutorial02_Cube) : list Event :=
  let grey :=
    mk_float4 (float_lit 0.350) (float_lit 0.350) (float_lit 0.350)
              (float_lit 1.0) in
  [ EvClearRenderTarget (GetCurrentBackBufferRTV (base d))
      (if m_ConvertPSOutputToGamma (base d) then LinearToSRGB grey else grey)
      RESOURCE_STATE_TRANSITION_MODE_TRANSITION;
    EvClearDepthStencil (GetDepthBufferDSV (base d)) CLEAR_DEPTH_FLAG
      (float_lit 1) 0 RESOURCE_STATE_TRANSITION_MODE_TRANSITION;
    EvMapBuffer (m_VSConstants d) MAP_WRITE MAP_FLAG_DISCARD;
    EvStoreMapped (m_VSConstants d) (MatrixData (m_WorldViewProjMatrix d));
    EvUnmapBuffer (m_VSConstants d) MAP_WRITE;
    EvSetVertexBuffers 0 1 [m_CubeVertexBuffer d] [0]
      RESOURCE_STATE_TRANSITION_MODE_TRANSITION SET_VERTEX_BUFFERS_FLAG_RESET;
    EvSetIndexBuffer (m_CubeIndexBuffer d) 0
      RESOURCE_STATE_TRANSITION_MODE_TRANSITION;
    EvSetPipelineState (m_pPSO d);
    EvCommitShaderResources (m_pSRB d) RESOURCE_STATE_TRANSITION_MODE_TRANSITION;
    EvDrawIndexed
      {| NumIndices := 144; IndexType := VT_UINT32;
         Flags := DRAW_FLAG_VERIFY_ALL |} ].

(** What holds of a world between [Initialize] and any later frame: the
    three buffer members name three distinct buffers, the vertex and index
    buffers are [bv] and [bi], and the uniform buffer still has the
    description it was created with. *)
Definition frame_inv (icb ivb iib : nat) (cbd : BufferDesc) (bv bi : Buffer)
    (w : World) : Prop :=
  m_VSConstants (driver w) = Some icb /\
  m_CubeVertexBuffer (driver w) = Some ivb /\
  m_CubeIndexBuffer (driver w) = Some iib /\
  icb <> ivb /\ icb <> iib /\
  buffers (engine w) !! ivb = Some bv /\
  buffers (engine w) !! iib = Some bi /\
  exists c, buffers (engine w) !! icb = Some {| buf_desc := cbd; buf_data := c |}.
End SpecSteps.

(** ** Measures used to relate the pipeline, the buffers and the draw *)

Section Measures.
Context {S : Scalars} {E : Engine}.

(** Bytes of one component of a vertex attribute or of one index. *)
Definition sizeof_VALUE_TYPE (t : VALUE_TYPE) : N :=
  match t with
  | VT_FLOAT32 => sizeof_float
  | VT_UINT32 => sizeof_Uint32
  end.

(** Bytes that the elements of an input layout read from one vertex when
    they are packed one after the other. *)
Definition layout_stride (l : list LayoutElement) : N :=
  fold_right
    (fun e acc => NumComponents e * sizeof_VALUE_TYPE (ValueType e) + acc) 0 l.

Definition is_map (ev : Event) : bool :=
  match ev with EvMapBuffer _ _ _ => true | _ => false end.

Definition is_create (ev : Event) : bool :=
  match ev with
  | EvCreateDefaultShaderSourceStreamFactory | EvCreateShader _
  | EvCreateBuffer _ _ | EvCreateGraphicsPipelineState _
  | EvCreateShaderResourceBinding _ _ => true
  | _ => false
  end.

(** The members of the driver that name engine objects. *)
Definition handles_of (d : Tutorial02_Cube) : list handle :=
  [m_pPSO d; m_CubeVertexBuffer d; m_CubeIndexBuffer d; m_VSConstants d;
   m_pSRB d].
End Measures.

(** ** Properties of the driver *)

Section Properties.
Context {S : Scalars} {E : Engine}.
Local Open Scope mat_scope.

Lemma exec_Update (w : World) (CurrTime ElapsedTime : double) :
  exec (Update CurrTime ElapsedTime) w =
  let b := SampleBase_Update CurrTime ElapsedTime (base (driver w)) in
  {| driver :=
       set_m_WorldViewProjMatrix
         (RotationY (fmul (float_of_double CurrTime) (float_lit 0.5))
          ** RotationX (fmul (fneg PI_F) (float_lit 0.1))
          ** View_matrix ** SrfPreTransform_matrix b ** Proj_matrix b)
         (set_base b (driver w));
     engine := engine w |}.
Proof. destruct w as [d [bs os cs]]. reflexivity. Qed.

Lemma exec_Render (w : World) :
  exec Render w =
  {| driver := driver w;
     engine :=
       {| buffers :=
            store_buffer (m_VSConstants (driver w))
              (MatrixData (m_WorldViewProjMatrix (driver w)))
              (buffers (engine w));
          objects := objects (engine w);
          calls := calls (engine w) ++ spec_Render_steps (driver w) |} |}.
Proof.
  destruct w as [d [bs os cs]].
  unfold exec, Render; cbn.
  rewrite <- !app_assoc. reflexivity.
Qed.

Lemma issued_Render (w : World) : issued Render w = spec_Render_steps (driver w).
Proof.
  unfold issued. rewrite exec_Render. cbn [engine calls].
  apply drop_app_length.
Qed.

(** C1: for every time value, [Update] stores in the world-view-projection
    member the product model * view * surface pre-transform * projection,
    in that order, where model is [RotationY] of half the time composed
    with [RotationX] of the fixed tilt [-PI_F * 0.1f], and view is the
    fixed translation. *)
Theorem Update_world_view_proj (w : World) (CurrTime ElapsedTime : double) :
  let b := SampleBase_Update CurrTime ElapsedTime (base (driver w)) in
  let CubeModelTransform :=
    RotationY (fmul (float_of_double CurrTime) (float_lit 0.5))
    ** RotationX (fmul (fneg PI_F) (float_lit 0.1)) in
  let View := Translation (float_lit 0) (float_lit 0.25) (float_lit 5.0) in
  m_WorldViewProjMatrix (driver (exec (Update CurrTime ElapsedTime) w)) =
  CubeModelTransform ** View ** SrfPreTransform_matrix b ** Proj_matrix b.
Proof. intros b M V. rewrite exec_Update. reflexivity. Qed.

(** C2: whatever the current and elapsed time given to [Update], the
    [Render] that follows issues exactly one indexed draw call, and that
    call draws 144 indices. *)
Theorem Render_one_draw_144 (w : World) (CurrTime ElapsedTime : double) :
  exists attribs,
    List.filter is_draw (issued Render (exec (Update CurrTime ElapsedTime) w))
      = [EvDrawIndexed attribs] /\
    NumIndices attribs = 144.
Proof.
  rewrite issued_Render. eexists. split; reflexivity.
Qed.

(** C6: on every frame [Render] issues its calls in one fixed order: clear
    of the render target, clear of the depth buffer, the write of the
    current transform into the uniform buffer, the binding of the vertex
    buffer, of the index buffer and of the pipeline state, and last the
    indexed draw call; nothing is left out or moved. *)
Theorem Render_fixed_order (w : World) :
  issued Render w = spec_Render_steps (driver w) /\
  forall CurrTime ElapsedTime,
    map (fun ev => match ev with
                   | EvClearRenderTarget _ _ _ => 0
                   | EvClearDepthStencil _ _ _ _ _ => 1
                   | EvMapBuffer _ _ _ => 2
                   | EvStoreMapped _ _ => 3
                   | EvUnmapBuffer _ _ => 4
                   | EvSetVertexBuffers _ _ _ _ _ _ => 5
                   | EvSetIndexBuffer _ _ _ => 6
                   | EvSetPipelineState _ => 7
                   | EvCommitShaderResources _ _ => 8
                   | EvDrawIndexed _ => 9
                   | _ => 10
                   end)
        (issued Render (exec (Update CurrTime ElapsedTime) w))
    = [0; 1; 2; 3; 4; 5; 6; 7; 8; 9].
Proof.
  split; [apply issued_Render |].
  intros t e. rewrite issued_Render. reflexivity.
Qed.

(** C8: [Update] assigns the world-view-projection member and no other
    member declared by the driver (the base-class subobject is what
    [SampleBase::Update] makes of it), it leaves the engine alone, and
    [Render] changes no member of the driver object. *)
Theorem Update_Render_members (w : World) (CurrTime ElapsedTime : double) :
  let d := driver w in
  let d' := driver (exec (Update CurrTime ElapsedTime) w) in
  (m_pPSO d' = m_pPSO d /\
   m_CubeVertexBuffer d' = m_CubeVertexBuffer d /\
   m_CubeIndexBuffer d' = m_CubeIndexBuffer d /\
   m_VSConstants d' = m_VSConstants d /\
   m_pSRB d' = m_pSRB d /\
   base d' = SampleBase_Update CurrTime ElapsedTime (base d)) /\
  engine (exec (Update CurrTime ElapsedTime) w) = engine w /\
  driver (exec Render w) = driver w.
Proof.
  cbv zeta. rewrite exec_Update, exec_Render. cbn. repeat split.
Qed.

(** C9: every element of [Indices] is below 54 and so names one of the 54
    entries of [CubeVerts]. *)
Theorem Indices_in_range :
  Forall (fun i => (i < 54)%N) Indices /\
  Forall (fun i => is_Some (CubeVerts !! N.to_nat i)) Indices.
Proof.
  split.
  - unfold Indices. repeat (apply Forall_cons; split; [reflexivity |]).
    apply Forall_nil_2.
  - unfold Indices.
    repeat (apply Forall_cons; split; [eexists; reflexivity |]).
    apply Forall_nil_2.
Qed.

Lemma exec_CreateVertexBuffer (w : World) :
  exec CreateVertexBuffer w =
  {| driver :=
       set_m_CubeVertexBuffer (Some (length (buffers (engine w)))) (driver w);
     engine :=
       {| buffers :=
            buffers (engine w) ++
            [{| buf_desc :=
                  {| Name := "Cube vertex buffer"; Size := sizeof_CubeVerts;
                     Usage := USAGE_IMMUTABLE; BindFlags := BIND_VERTEX_BUFFER;
                     CPUAccessFlags := CPU_ACCESS_NONE |};
                buf_data := VertexArray CubeVerts |}];
          objects := objects (engine w);
          calls :=
            calls (engine w) ++
            [EvCreateBuffer
               {| Name := "Cube vertex buffer"; Size := sizeof_CubeVerts;
                  Usage := USAGE_IMMUTABLE; BindFlags := BIND_VERTEX_BUFFER;
                  CPUAccessFlags := CPU_ACCESS_NONE |}
               (Some {| pData := VertexArray CubeVerts;
                        DataSize := sizeof_CubeVerts |})] |} |}.
Proof. destruct w as [d [bs os cs]]. reflexivity. Qed.

Lemma exec_CreateIndexBuffer (w : World) :
  exec CreateIndexBuffer w =
  {| driver :=
       set_m_CubeIndexBuffer (Some (length (buffers (engine w)))) (driver w);
     engine :=
       {| buffers :=
            buffers (engine w) ++
            [{| buf_desc :=
                  {| Name := "Cube index buffer"; Size := sizeof_Indices;
                     Usage := USAGE_IMMUTABLE; BindFlags := BIND_INDEX_BUFFER;
                     CPUAccessFlags := CPU_ACCESS_NONE |};
                buf_data := IndexArray Indices |}];
          objects := objects (engine w);
          calls :=
            calls (engine w) ++
            [EvCreateBuffer
               {| Name := "Cube index buffer"; Size := sizeof_Indices;
                  Usage := USAGE_IMMUTABLE; BindFlags := BIND_INDEX_BUFFER;
                  CPUAccessFlags := CPU_ACCESS_NONE |}
               (Some {| pData := IndexArray Indices;
                        DataSize := sizeof_Indices |})] |} |}.
Proof. destruct w as [d [bs os cs]]. reflexivity. Qed.

(** C4: [CreateVertexBuffer] creates a buffer that holds the 54 literal
    vertices, each a position of 3 floats and a colour of 4 floats, and the
    sizes handed to the device for the vertex and the index buffer (in the
    description and in the initial data) are the sizes of the literal
    arrays: 54 vertices of 28 bytes, 144 indices of 4 bytes. *)
Theorem buffers_hold_literal_arrays (w : World) :
  let n := length (buffers (engine w)) in
  (length CubeVerts = 54%nat /\
   sizeof_Vertex = 3 * sizeof_float + 4 * sizeof_float /\
   exists desc,
     issued CreateVertexBuffer w =
       [EvCreateBuffer desc
          (Some {| pData := VertexArray CubeVerts;
                   DataSize := sizeof_contents (VertexArray CubeVerts) |})] /\
     Size desc = sizeof_contents (VertexArray CubeVerts) /\
     Size desc = 54 * 28 /\
     m_CubeVertexBuffer (driver (exec CreateVertexBuffer w)) = Some n /\
     buffers (engine (exec CreateVertexBuffer w)) !! n =
       Some {| buf_desc := desc; buf_data := VertexArray CubeVerts |}) /\
  (length Indices = 144%nat /\
   exists desc,
     issued CreateIndexBuffer w =
       [EvCreateBuffer desc
          (Some {| pData := IndexArray Indices;
                   DataSize := sizeof_contents (IndexArray Indices) |})] /\
     Size desc = sizeof_contents (IndexArray Indices) /\
     Size desc = 144 * 4 /\
     m_CubeIndexBuffer (driver (exec CreateIndexBuffer w)) = Some n /\
     buffers (engine (exec CreateIndexBuffer w)) !! n =
       Some {| buf_desc := desc; buf_data := IndexArray Indices |}).
Proof.
  intros n. split.
  - split; [reflexivity |]. split; [reflexivity |].
    eexists. unfold issued. rewrite exec_CreateVertexBuffer. cbn [engine calls buffers driver].
    split; [apply drop_app_length |].
    split; [reflexivity |]. split; [reflexivity |]. split; [reflexivity |].
    apply list_lookup_middle. reflexivity.
  - split; [reflexivity |].
    eexists. unfold issued. rewrite exec_CreateIndexBuffer. cbn [engine calls buffers driver].
    split; [apply drop_app_length |].
    split; [reflexivity |]. split; [reflexivity |]. split; [reflexivity |].
    apply list_lookup_middle. reflexivity.
Qed.

(** *** From [Initialize] through the frames *)

Lemma exec_seq {A : Type} (m : M A) (k : M unit) (w : World) :
  exec (m ;; k) w = exec k (exec m w).
Proof. unfold exec, bind. destruct (m w). reflexivity. Qed.

Lemma CreatePipelineState_buffers (w : World) :
  let n := length (buffers (engine w)) in
  let w' := exec CreatePipelineState w in
  buffers (engine w') =
    (buffers (engine w) ++
     [{| buf_desc :=
           {| Name := "VS constants CB"; Size := sizeof_float4x4;
              Usage := USAGE_DYNAMIC; BindFlags := BIND_UNIFORM_BUFFER;
              CPUAccessFlags := CPU_ACCESS_WRITE |};
         buf_data := NoData |}])%list /\
  m_VSConstants (driver w') = Some n.
Proof. destruct w as [d [bs os cs]]. split; reflexivity. Qed.

Lemma Initialize_frame_inv (InitInfo : SampleInitInfo) (w : World) :
  let n := length (buffers (engine w)) in
  frame_inv n (n + 1) (n + 2)
    {| Name := "VS constants CB"; Size := sizeof_float4x4;
       Usage := USAGE_DYNAMIC; BindFlags := BIND_UNIFORM_BUFFER;
       CPUAccessFlags := CPU_ACCESS_WRITE |}
    {| buf_desc :=
         {| Name := "Cube vertex buffer"; Size := sizeof_CubeVerts;
            Usage := USAGE_IMMUTABLE; BindFlags := BIND_VERTEX_BUFFER;
            CPUAccessFlags := CPU_ACCESS_NONE |};
       buf_data := VertexArray CubeVerts |}
    {| buf_desc :=
         {| Name := "Cube index buffer"; Size := sizeof_Indices;
            Usage := USAGE_IMMUTABLE; BindFlags := BIND_INDEX_BUFFER;
            CPUAccessFlags := CPU_ACCESS_NONE |};
       buf_data := IndexArray Indices |}
    (exec (Initialize InitInfo) w).
Proof.
  intros n. destruct w as [d [bs os cs]].
  unfold Initialize. rewrite !exec_seq.
  set (w1 := exec (modify_this _) _).
  assert (Hn : length (buffers (engine w1)) = n) by reflexivity.
  destruct (CreatePipelineState_buffers w1) as [Hb Hc].
  rewrite Hn in Hc.
  set (w2 := exec CreatePipelineState w1) in *.
  rewrite exec_CreateIndexBuffer, exec_CreateVertexBuffer.
  unfold frame_inv.
  cbn [driver engine buffers set_m_CubeIndexBuffer set_m_CubeVertexBuffer
       m_VSConstants m_CubeVertexBuffer m_CubeIndexBuffer].
  rewrite Hb, !length_app, Hn. cbn [length].
  change (buffers (engine w1)) with bs.
  rewrite <- !app_assoc. cbn [app].
  assert (Hlen : length bs = n) by reflexivity.
  clearbody n.
  split; [exact Hc |].
  split; [reflexivity |].
  split; [f_equal; lia |].
  split; [lia |]. split; [lia |].
  split; [rewrite lookup_app_r by lia; rewrite Hlen;
          replace (n + 1 - n)%nat with 1%nat by lia; reflexivity |].
  split; [rewrite lookup_app_r by lia; rewrite Hlen;
          replace (n + 2 - n)%nat with 2%nat by lia; reflexivity |].
  eexists. apply list_lookup_middle. symmetry. exact Hlen.
Qed.

Lemma frame_calls (t : double * double) (w : World) :
  calls (engine (exec (frame t) w)) =
  (calls (engine w)
   ++ spec_Render_steps (driver (exec (Update (fst t) (snd t)) w)))%list.
Proof.
  unfold frame. rewrite exec_seq, exec_Render. cbn [engine calls].
  rewrite exec_Update. reflexivity.
Qed.

Lemma frame_preserves_inv icb ivb iib cbd bv bi (t : double * double)
    (w : World) :
  frame_inv icb ivb iib cbd bv bi w ->
  frame_inv icb ivb iib cbd bv bi (exec (frame t) w).
Proof.
  intros (Hcb & Hvb & Hib & Hne1 & Hne2 & Hbv & Hbi & c & Hc).
  unfold frame. rewrite exec_seq, exec_Render, exec_Update.
  unfold frame_inv.
  cbn [driver engine buffers set_m_WorldViewProjMatrix set_base
       m_VSConstants m_CubeVertexBuffer m_CubeIndexBuffer
       m_WorldViewProjMatrix].
  rewrite Hcb. unfold store_buffer.
  repeat (split; [first [assumption | reflexivity] |]).
  split; [rewrite list_lookup_alter_ne by assumption; exact Hbv |].
  split; [rewrite list_lookup_alter_ne by assumption; exact Hbi |].
  eexists. rewrite list_lookup_alter_eq, Hc. reflexivity.
Qed.

Lemma frame_steps_untouched icb ivb iib cbd bv bi (t : double * double)
    (w : World) :
  frame_inv icb ivb iib cbd bv bi w ->
  Forall (fun ev => touches ivb ev = false /\ touches iib ev = false)
    (spec_Render_steps (driver (exec (Update (fst t) (snd t)) w))).
Proof.
  intros (Hcb & Hvb & Hib & Hne1 & Hne2 & _).
  rewrite exec_Update. unfold spec_Render_steps.
  cbn [driver set_m_WorldViewProjMatrix set_base m_VSConstants].
  rewrite Hcb.
  assert (H1 : Nat.eqb ivb icb = false) by (apply Nat.eqb_neq; congruence).
  assert (H2 : Nat.eqb iib icb = false) by (apply Nat.eqb_neq; congruence).
  repeat (apply Forall_cons; split; [cbn [touches]; auto |]).
  apply Forall_nil_2.
Qed.

Lemma run_frames_nil (w : World) : run_frames [] w = w.
Proof. reflexivity. Qed.

Lemma run_frames_cons (t : double * double) (ts : list (double * double))
    (w : World) :
  run_frames (t :: ts) w = run_frames ts (exec (frame t) w).
Proof. unfold run_frames. cbn [fold_left]. reflexivity. Qed.

Lemma run_frames_inv icb ivb iib cbd bv bi (ts : list (double * double)) :
  forall w : World,
  frame_inv icb ivb iib cbd bv bi w ->
  frame_inv icb ivb iib cbd bv bi (run_frames ts w) /\
  exists evs,
    calls (engine (run_frames ts w)) = (calls (engine w) ++ evs)%list /\
    Forall (fun ev => touches ivb ev = false /\ touches iib ev = false) evs.
Proof.
  induction ts as [| t ts IH]; intros w Hinv.
  - split; [exact Hinv |]. exists []. split; [| apply Forall_nil_2].
    rewrite run_frames_nil. symmetry. apply app_nil_r.
  - rewrite run_frames_cons.
    destruct (IH (exec (frame t) w) (frame_preserves_inv _ _ _ _ _ _ t w Hinv))
      as (Hinv' & evs & Hcalls & Hevs).
    split; [exact Hinv' |].
    exists (spec_Render_steps (driver (exec (Update (fst t) (snd t)) w))
            ++ evs)%list.
    split.
    + rewrite Hcalls, frame_calls, <- app_assoc. reflexivity.
    + apply Forall_app. split; [| exact Hevs].
      exact (frame_steps_untouched _ _ _ _ _ _ t w Hinv).
Qed.

(** C5: the vertex buffer and the index buffer are created by [Initialize]
    with immutable usage and hold the literal arrays; after any number of
    frames of [Update] and [Render] the members still name those buffers,
    the buffers are what they were, and no call issued since [Initialize]
    maps or stores into either of them. *)
Theorem vertex_index_buffers_immutable (InitInfo : SampleInitInfo)
    (w0 : World) (ts : list (double * double)) :
  let w1 := exec (Initialize InitInfo) w0 in
  let w := run_frames ts w1 in
  exists ivb iib bv bi,
    (m_CubeVertexBuffer (driver w1) = Some ivb /\
     m_CubeIndexBuffer (driver w1) = Some iib /\
     buffers (engine w1) !! ivb = Some bv /\
     buffers (engine w1) !! iib = Some bi /\
     Usage (buf_desc bv) = USAGE_IMMUTABLE /\
     Usage (buf_desc bi) = USAGE_IMMUTABLE /\
     buf_data bv = VertexArray CubeVerts /\
     buf_data bi = IndexArray Indices) /\
    (m_CubeVertexBuffer (driver w) = Some ivb /\
     m_CubeIndexBuffer (driver w) = Some iib /\
     buffers (engine w) !! ivb = Some bv /\
     buffers (engine w) !! iib = Some bi) /\
    Forall (fun ev => touches ivb ev = false /\ touches iib ev = false)
      (drop (length (calls (engine w1))) (calls (engine w))).
Proof.
  intros w1 w.
  pose proof (Initialize_frame_inv InitInfo w0) as Hinit.
  cbv zeta in Hinit. fold w1 in Hinit.
  destruct (run_frames_inv _ _ _ _ _ _ ts w1 Hinit)
    as (Hinv & evs & Hcalls & Hevs).
  fold w in Hinv, Hcalls.
  destruct Hinit as (_ & Hvb1 & Hib1 & _ & _ & Hbv1 & Hbi1 & _).
  destruct Hinv as (_ & Hvb & Hib & _ & _ & Hbv & Hbi & _).
  do 4 eexists. split; [| split].
  - repeat (split; [eassumption || reflexivity |]). reflexivity.
  - repeat (split; [eassumption |]). eassumption.
  - rewrite Hcalls, drop_app_length. exact Hevs.
Qed.

(** C10: the uniform buffer is created with the size of one [float4x4];
    on every frame after [Initialize] the one store that [Render] makes
    goes to that buffer and writes one [float4x4], which is no larger than
    the buffer. *)
Theorem uniform_buffer_write_fits (InitInfo : SampleInitInfo) (w0 : World)
    (ts : list (double * double)) :
  let w := run_frames ts (exec (Initialize InitInfo) w0) in
  exists icb b data,
    m_VSConstants (driver w) = Some icb /\
    buffers (engine w) !! icb = Some b /\
    Size (buf_desc b) = sizeof_float4x4 /\
    sizeof_float4x4 = 16 * sizeof_float /\
    List.filter is_store (issued Render w) = [EvStoreMapped (Some icb) data] /\
    data = MatrixData (m_WorldViewProjMatrix (driver w)) /\
    sizeof_contents data = sizeof_float4x4 /\
    (sizeof_contents data <= Size (buf_desc b))%N.
Proof.
  intros w.
  pose proof (Initialize_frame_inv InitInfo w0) as Hinit.
  cbv zeta in Hinit.
  destruct (run_frames_inv _ _ _ _ _ _ ts _ Hinit) as (Hinv & _).
  fold w in Hinv.
  destruct Hinv as (Hcb & _ & _ & _ & _ & _ & _ & c & Hc).
  do 3 eexists.
  split; [exact Hcb |]. split; [exact Hc |].
  split; [reflexivity |]. split; [reflexivity |].
  split; [rewrite issued_Render; unfold spec_Render_steps;
          cbn [List.filter is_store]; rewrite Hcb; reflexivity |].
  split; [reflexivity |]. split; [reflexivity |].
  cbn. reflexivity.
Qed.

(** C7: [Update] always returns, and its result depends on the current
    time alone once the surface pre-transform and the projection are the
    same: two invocations at the same time, from any two states and with
    any elapsed times, store the same world-view-projection matrix. *)
Theorem Update_deterministic_total (w1 w2 : World)
    (CurrTime ElapsedTime1 ElapsedTime2 : double) :
  SrfPreTransform_matrix
    (SampleBase_Update CurrTime ElapsedTime1 (base (driver w1))) =
  SrfPreTransform_matrix
    (SampleBase_Update CurrTime ElapsedTime2 (base (driver w2))) ->
  Proj_matrix (SampleBase_Update CurrTime ElapsedTime1 (base (driver w1))) =
  Proj_matrix (SampleBase_Update CurrTime ElapsedTime2 (base (driver w2))) ->
  (exists w1', Update CurrTime ElapsedTime1 w1 = (tt, w1')) /\
  (exists w2', Update CurrTime ElapsedTime2 w2 = (tt, w2')) /\
  m_WorldViewProjMatrix (driver (exec (Update CurrTime ElapsedTime1) w1)) =
  m_WorldViewProjMatrix (driver (exec (Update CurrTime ElapsedTime2) w2)).
Proof.
  intros Hpre Hproj.
  split; [destruct (Update CurrTime ElapsedTime1 w1) as [[] w1']; eexists;
          reflexivity |].
  split; [destruct (Update CurrTime ElapsedTime2 w2) as [[] w2']; eexists;
          reflexivity |].
  rewrite !exec_Update. cbn [driver m_WorldViewProjMatrix set_m_WorldViewProjMatrix].
  rewrite Hpre, Hproj. reflexivity.
Qed.

(** C3, as the code has it: at time 0 the stored matrix is the fixed tilt
    [RotationX(-PI_F * 0.1f)], then the camera translation, the surface
    pre-transform and the projection, wherever [RotationY] of the zero
    angle leaves the tilt as it is when multiplied on its left. *)
Theorem Update_time_zero (w : World) (ElapsedTime : double) :
  RotationY (fmul (float_of_double (double_lit 0)) (float_lit 0.5))
  ** RotationX (fmul (fneg PI_F) (float_lit 0.1))
  = RotationX (fmul (fneg PI_F) (float_lit 0.1)) ->
  m_WorldViewProjMatrix (driver (exec (Update (double_lit 0) ElapsedTime) w)) =
  RotationX (fmul (fneg PI_F) (float_lit 0.1))
  ** View_matrix
  ** SrfPreTransform_matrix
       (SampleBase_Update (double_lit 0) ElapsedTime (base (driver w)))
  ** Proj_matrix
       (SampleBase_Update (double_lit 0) ElapsedTime (base (driver w))).
Proof.
  intros Hrot. rewrite exec_Update.
  cbn [driver m_WorldViewProjMatrix set_m_WorldViewProjMatrix].
  rewrite Hrot. reflexivity.
Qed.
End Properties.

(** ** Time 0 in exact arithmetic *)

Section RealFacts.
Import RealModel.
Local Open Scope R_scope.
Local Open Scope mat_scope.

Lemma Q2R_zero : Q2R 0 = 0.
Proof. unfold Q2R. cbn. lra. Qed.

(** In exact arithmetic the tilt [-PI_F * 0.1f] is the angle -pi/10. *)
Lemma tilt_angle_exact : fmul (fneg PI_F) (float_lit 0.1) = - (PI / 10).
Proof. cbn. unfold Q2R. cbn. field. Qed.

Lemma sin_tilt_nonzero : sin (- PI * Q2R 0.1) <> 0.
Proof.
  replace (- PI * Q2R 0.1) with (- (PI / 10)) by (unfold Q2R; cbn; field).
  rewrite sin_neg.
  pose proof PI_RGT_0 as Hpi.
  assert (Hpos : 0 < sin (PI / 10)) by (apply sin_gt_0; lra).
  lra.
Qed.

Lemma mat_rotation_y_zero :
  RotationY (fmul (float_of_double (double_lit 0)) (float_lit 0.5)) = Identity.
Proof.
  cbn. rewrite Q2R_zero, Rmult_0_l.
  unfold mat_rotation_y. rewrite cos_0, sin_0, Ropp_0. reflexivity.
Qed.

Lemma mat_mul_identity_l (m : float4x4) : Identity ** m = m.
Proof.
  destruct m as [[a0 a1 a2 a3] [b0 b1 b2 b3] [d0 d1 d2 d3] [e0 e1 e2 e3]].
  cbn. unfold mat_mul, vec_mat. cbn.
  f_equal; f_equal; ring.
Qed.

(** C3, refuted as stated: with exact arithmetic and a swap chain in the
    identity orientation, the matrix stored by [Update] at time 0 is not the
    composition of an identity rotation, the camera translation and the
    projection: the entry of row 2, column 4 is the sine of the tilt on one
    side and 0 on the other. *)
Lemma Update_time_zero_not_spec_composition :
  m_WorldViewProjMatrix
    (driver (exec (Update (double_lit 0) (double_lit 0)) world0))
  <> spec_time_zero_composition (base (driver world0)).
Proof.
  intros H. apply (f_equal (fun m => c3 (r1 m))) in H.
  rewrite exec_Update in H.
  cbv [driver m_WorldViewProjMatrix set_m_WorldViewProjMatrix set_base
       world0 base spec_time_zero_composition View_matrix
       SrfPreTransform_matrix Proj_matrix mul4x4 real_engine Identity
       RotationX RotationY Translation GetSurfacePretransformMatrix
       GetAdjustedProjectionMatrix SampleBase_Update mat_mul vec_mat
       mat_identity mat_rotation_x mat_rotation_y mat_translation
       mat_projection c0 c1 c2 c3 r0 r1 r2 r3 fmul fneg fdiv float_lit
       double_lit float_of_double PI_F real_scalars iconst float_of_int] in H.
  ring_simplify in H.
  exact (sin_tilt_nonzero H).
Qed.

Lemma mat_rotation_y_zero_tilt :
  RotationY (fmul (float_of_double (double_lit 0)) (float_lit 0.5))
  ** RotationX (fmul (fneg PI_F) (float_lit 0.1))
  = RotationX (fmul (fneg PI_F) (float_lit 0.1)).
Proof. rewrite mat_rotation_y_zero. apply mat_mul_identity_l. Qed.

(** The hypothesis of [Update_time_zero] holds in exact arithmetic. *)
Lemma Update_time_zero_witness :
  (RotationY (fmul (float_of_double (double_lit 0)) (float_lit 0.5))
   ** RotationX (fmul (fneg PI_F) (float_lit 0.1))
   = RotationX (fmul (fneg PI_F) (float_lit 0.1))) /\
  m_WorldViewProjMatrix
    (driver (exec (Update (double_lit 0) (double_lit 1)) world1)) =
  RotationX (fmul (fneg PI_F) (float_lit 0.1))
  ** View_matrix
  ** SrfPreTransform_matrix
       (SampleBase_Update (double_lit 0) (double_lit 1) (base (driver world1)))
  ** Proj_matrix
       (SampleBase_Update (double_lit 0) (double_lit 1) (base (driver world1))).
Proof.
  split.
  - exact mat_rotation_y_zero_tilt.
  - apply (Update_time_zero world1 (double_lit 1)).
    exact mat_rotation_y_zero_tilt.
Defined.

(** Two invocations at time 2, from states that differ in the matrix left
    in the member and with different elapsed times. *)
Lemma Update_deterministic_total_witness :
  (SrfPreTransform_matrix
     (SampleBase_Update (double_lit 2) (double_lit 0) (base (driver world0))) =
   SrfPreTransform_matrix
     (SampleBase_Update (double_lit 2) (double_lit 1) (base (driver world1))) /\
   Proj_matrix
     (SampleBase_Update (double_lit 2) (double_lit 0) (base (driver world0))) =
   Proj_matrix
     (SampleBase_Update (double_lit 2) (double_lit 1) (base (driver world1)))) /\
  m_WorldViewProjMatrix
    (driver (exec (Update (double_lit 2) (double_lit 0)) world0)) =
  m_WorldViewProjMatrix
    (driver (exec (Update (double_lit 2) (double_lit 1)) world1)).
Proof.
  split.
  - split; reflexivity.
  - apply (Update_deterministic_total world0 world1
             (double_lit 2) (double_lit 0) (double_lit 1)); reflexivity.
Defined.
End RealFacts.

Section Lifecycle.
Context {S : Scalars} {E : Engine}.
Local Open Scope mat_scope.

Lemma exec_Initialize (InitInfo : SampleInitInfo) (d : Tutorial02_Cube)
    (bs : list Buffer) (os : list EngineObject) (cs : list Event) :
  let b := SampleBase_Initialize InitInfo (base d) in
  let n := length bs in
  let k := length os in
  let macros :=
    [("CONVERT_PS_OUTPUT_TO_GAMMA",
      if m_ConvertPSOutputToGamma b then "1" else "0")] in
  let vsci :=
    {| SourceLanguage := SHADER_SOURCE_LANGUAGE_HLSL;
       UseCombinedTextureSamplers := true;
       CompileFlags := SHADER_COMPILE_FLAG_PACK_MATRIX_ROW_MAJOR;
       Macros := macros;
       pShaderSourceStreamFactory := Some k;
       ShaderType := SHADER_TYPE_VERTEX;
       EntryPoint := "main"; ShaderName := "Cube VS";
       FilePath := "cube.vsh" |} in
  let psci :=
    {| SourceLanguage := SHADER_SOURCE_LANGUAGE_HLSL;
       UseCombinedTextureSamplers := true;
       CompileFlags := SHADER_COMPILE_FLAG_PACK_MATRIX_ROW_MAJOR;
       Macros := macros;
       pShaderSourceStreamFactory := Some k;
       ShaderType := SHADER_TYPE_PIXEL;
       EntryPoint := "main"; ShaderName := "Cube PS";
       FilePath := "cube.psh" |} in
  let psoci :=
    {| PSOName := "Cube PSO";
       PipelineType := PIPELINE_TYPE_GRAPHICS;
       NumRenderTargets := 1;
       RTVFormats0 := ColorBufferFormat b;
       DSVFormat := DepthBufferFormat b;
       PrimitiveTopology := PRIMITIVE_TOPOLOGY_TRIANGLE_LIST;
       CullMode := CULL_MODE_BACK;
       DepthEnable := true;
       LayoutElements :=
         [ mk_LayoutElement 0 0 3 VT_FLOAT32 false;
           mk_LayoutElement 1 0 4 VT_FLOAT32 false ];
       NumElements := 2;
       pVS := Some (1 + k)%nat;
       pPS := Some (2 + k)%nat;
       DefaultVariableType := SHADER_RESOURCE_VARIABLE_TYPE_STATIC |} in
  let cbd :=
    {| Name := "VS constants CB"; Size := sizeof_float4x4;
       Usage := USAGE_DYNAMIC; BindFlags := BIND_UNIFORM_BUFFER;
       CPUAccessFlags := CPU_ACCESS_WRITE |} in
  let vbd :=
    {| Name := "Cube vertex buffer"; Size := sizeof_CubeVerts;
       Usage := USAGE_IMMUTABLE; BindFlags := BIND_VERTEX_BUFFER;
       CPUAccessFlags := CPU_ACCESS_NONE |} in
  let ibd :=
    {| Name := "Cube index buffer"; Size := sizeof_Indices;
       Usage := USAGE_IMMUTABLE; BindFlags := BIND_INDEX_BUFFER;
       CPUAccessFlags := CPU_ACCESS_NONE |} in
  exec (Initialize InitInfo)
    {| driver := d;
       engine := {| buffers := bs; objects := os; calls := cs |} |} =
  {| driver :=
       {| base := b;
          m_pPSO := Some (3 + k)%nat;
          m_CubeVertexBuffer := Some (1 + n)%nat;
          m_CubeIndexBuffer := Some (2 + n)%nat;
          m_VSConstants := Some n;
          m_pSRB := Some (4 + k)%nat;
          m_WorldViewProjMatrix := m_WorldViewProjMatrix d |};
     engine :=
       {| buffers :=
            bs ++ [ {| buf_desc := cbd; buf_data := NoData |};
                    {| buf_desc := vbd; buf_data := VertexArray CubeVerts |};
                    {| buf_desc := ibd; buf_data := IndexArray Indices |} ];
          objects :=
            os ++ [ StreamFactoryObj; ShaderObj vsci; ShaderObj psci;
                    PipelineObj psoci; BindingObj (Some (3 + k)%nat) true ];
          calls :=
            cs ++ [ EvCreateDefaultShaderSourceStreamFactory;
                    EvCreateShader vsci;
                    EvCreateBuffer cbd None;
                    EvCreateShader psci;
                    EvCreateGraphicsPipelineState psoci;
                    EvSetStaticVariable (Some (3 + k)%nat) SHADER_TYPE_VERTEX
                      "Constants" (Some n);
                    EvCreateShaderResourceBinding (Some (3 + k)%nat) true;
                    EvCreateBuffer vbd
                      (Some {| pData := VertexArray CubeVerts;
                               DataSize := sizeof_CubeVerts |});
                    EvCreateBuffer ibd
                      (Some {| pData := IndexArray Indices;
                               DataSize := sizeof_Indices |}) ] |} |}.
Proof.
  intros b n k macros vsci psci psoci cbd vbd ibd.
  unfold exec, Initialize. cbn.
  rewrite !length_app. cbn [length]. rewrite !Nat.add_1_r.
  rewrite <- !app_assoc. cbn [app].
  reflexivity.
Qed.

Lemma store_buffer_descs (h : handle) (data : BufferContents)
    (bs : list Buffer) :
  map buf_desc (store_buffer h data bs) = map buf_desc bs.
Proof.
  destruct h as [i |]; [| reflexivity].
  unfold store_buffer. revert i.
  induction bs as [| b bs IH]; intros [| i]; try reflexivity.
  cbn. f_equal. apply IH.
Qed.

Lemma store_buffer_twice (h : handle) (data : BufferContents)
    (bs : list Buffer) :
  store_buffer h data (store_buffer h data bs) = store_buffer h data bs.
Proof.
  destruct h as [i |]; [| reflexivity].
  unfold store_buffer. revert i.
  induction bs as [| b bs IH]; intros [| i]; try reflexivity.
  cbn. f_equal. apply IH.
Qed.

Lemma frame_static (t : double * double) (w : World) :
  objects (engine (exec (frame t) w)) = objects (engine w) /\
  map buf_desc (buffers (engine (exec (frame t) w)))
    = map buf_desc (buffers (engine w)) /\
  handles_of (driver (exec (frame t) w)) = handles_of (driver w).
Proof.
  unfold frame. rewrite exec_seq, exec_Render, exec_Update.
  cbn [driver engine objects buffers].
  split; [reflexivity |]. split; [apply store_buffer_descs | reflexivity].
Qed.

Lemma run_frames_static (ts : list (double * double)) :
  forall w : World,
  objects (engine (run_frames ts w)) = objects (engine w) /\
  map buf_desc (buffers (engine (run_frames ts w)))
    = map buf_desc (buffers (engine w)) /\
  handles_of (driver (run_frames ts w)) = handles_of (driver w).
Proof.
  induction ts as [| t ts IH]; intros w.
  - rewrite run_frames_nil. repeat split.
  - rewrite run_frames_cons.
    destruct (IH (exec (frame t) w)) as (Ho & Hd & Hh).
    destruct (frame_static t w) as (Ho' & Hd' & Hh').
    rewrite Ho, Hd, Hh. repeat split; assumption.
Qed.

Lemma run_frames_calls (ts : list (double * double)) :
  forall w : World,
  exists evs,
    calls (engine (run_frames ts w)) = (calls (engine w) ++ evs)%list /\
    Forall (fun ev => is_create ev = false) evs /\
    length (List.filter is_draw evs) = length ts /\
    length evs = (10 * length ts)%nat.
Proof.
  induction ts as [| t ts IH]; intros w.
  - exists []. rewrite run_frames_nil, app_nil_r.
    repeat split. apply Forall_nil_2.
  - rewrite run_frames_cons.
    destruct (IH (exec (frame t) w)) as (evs & Hc & Hn & Hd & Hl).
    exists (spec_Render_steps (driver (exec (Update (fst t) (snd t)) w))
            ++ evs)%list.
    split; [rewrite Hc, frame_calls, <- app_assoc; reflexivity |].
    split; [apply Forall_app; split; [| exact Hn];
            repeat (apply Forall_cons; split; [reflexivity |]);
            apply Forall_nil_2 |].
    split.
    + rewrite List.filter_app, length_app, Hd. reflexivity.
    + rewrite length_app, Hl. cbn [length spec_Render_steps]. lia.
Qed.

(** X1: a frame creates nothing.  From any state and for any number of
    frames, [Update] and [Render] leave the table of objects, the number
    and the descriptions of the buffers and the five handle members as
    they were, and none of the calls they issue creates an engine object. *)
Theorem frames_create_nothing (ts : list (double * double)) (w : World) :
  objects (engine (run_frames ts w)) = objects (engine w) /\
  map buf_desc (buffers (engine (run_frames ts w)))
    = map buf_desc (buffers (engine w)) /\
  length (buffers (engine (run_frames ts w))) = length (buffers (engine w)) /\
  handles_of (driver (run_frames ts w)) = handles_of (driver w) /\
  Forall (fun ev => is_create ev = false)
    (drop (length (calls (engine w))) (calls (engine (run_frames ts w)))).
Proof.
  destruct (run_frames_static ts w) as (Ho & Hd & Hh).
  destruct (run_frames_calls ts w) as (evs & Hc & Hn & _).
  split; [exact Ho |]. split; [exact Hd |].
  split; [rewrite <- (length_map buf_desc), Hd; apply length_map |].
  split; [exact Hh |].
  rewrite Hc, drop_app_length. exact Hn.
Qed.

Lemma run_frames_counts (ts : list (double * double)) :
  forall w : World,
  exists evs,
    calls (engine (run_frames ts w)) = (calls (engine w) ++ evs)%list /\
    length (List.filter is_draw evs) = length ts /\
    length (List.filter is_store evs) = length ts /\
    length (List.filter (fun ev => negb (is_store ev)) evs)
      = (9 * length ts)%nat.
Proof.
  induction ts as [| t ts IH]; intros w.
  - exists []. rewrite run_frames_nil, app_nil_r. repeat split.
  - rewrite run_frames_cons.
    destruct (IH (exec (frame t) w)) as (evs & Hc & Hd & Hs & Hn).
    exists (spec_Render_steps (driver (exec (Update (fst t) (snd t)) w))
            ++ evs)%list.
    split; [rewrite Hc, frame_calls, <- app_assoc; reflexivity |].
    rewrite !List.filter_app, !length_app, Hd, Hs, Hn.
    cbn [spec_Render_steps List.filter is_draw is_store negb length].
    repeat split; lia.
Qed.

(** X2: one draw per frame over a whole run.  From an initialised driver,
    running n frames issues exactly n indexed draw calls and 9 n calls on
    the device context, and makes n stores through the mapped pointer of
    the uniform buffer. *)
Theorem frames_draw_count (InitInfo : SampleInitInfo) (w0 : World)
    (ts : list (double * double)) :
  let w1 := exec (Initialize InitInfo) w0 in
  let evs :=
    drop (length (calls (engine w1))) (calls (engine (run_frames ts w1))) in
  length (List.filter is_draw evs) = length ts /\
  length (List.filter is_store evs) = length ts /\
  length (List.filter (fun ev => negb (is_store ev)) evs)
    = (9 * length ts)%nat.
Proof.
  intros w1.
  destruct (run_frames_counts ts w1) as (evs & Hc & Hd & Hs & Hn).
  cbv zeta. rewrite Hc, drop_app_length. repeat split; assumption.
Qed.

(** X3: rendering again without an [Update] in between changes nothing but
    the record of calls: the driver object, the buffers and the objects are
    those left by the first [Render], and the same calls are issued. *)
Theorem Render_twice (w : World) :
  driver (exec Render (exec Render w)) = driver (exec Render w) /\
  buffers (engine (exec Render (exec Render w)))
    = buffers (engine (exec Render w)) /\
  objects (engine (exec Render (exec Render w)))
    = objects (engine (exec Render w)) /\
  issued Render (exec Render w) = issued Render w.
Proof.
  rewrite !issued_Render. rewrite !exec_Render.
  cbn [driver engine buffers objects].
  split; [reflexivity |]. split; [apply store_buffer_twice |].
  split; reflexivity.
Qed.

Lemma lookup_app_offset {A : Type} (l l' : list A) (i : nat) :
  (l ++ l')%list !! (i + length l)%nat = l' !! i.
Proof.
  rewrite lookup_app_r by lia. f_equal. lia.
Qed.

Ltac in_list := cbn [In]; repeat (first [left; reflexivity | right]).

Ltac lookup_at i :=
  etransitivity; [exact (lookup_app_offset _ _ i) | reflexivity].

(** X4: [Initialize] only adds.  From any state it leaves every buffer,
    object and recorded call of the engine in place, appends exactly three
    buffers, five objects and nine calls, points the five handle members at
    objects it has just created, and does not touch the transform member. *)
Theorem Initialize_appends (InitInfo : SampleInitInfo) (w0 : World) :
  let w1 := exec (Initialize InitInfo) w0 in
  let n := length (buffers (engine w0)) in
  let k := length (objects (engine w0)) in
  (exists nb, buffers (engine w1) = (buffers (engine w0) ++ nb)%list /\
              length nb = 3%nat) /\
  (exists no, objects (engine w1) = (objects (engine w0) ++ no)%list /\
              length no = 5%nat) /\
  (exists evs, calls (engine w1) = (calls (engine w0) ++ evs)%list /\
               length evs = 9%nat) /\
  handles_of (driver w1) =
    [Some (3 + k); Some (1 + n); Some (2 + n); Some n; Some (4 + k)]%nat /\
  m_WorldViewProjMatrix (driver w1) = m_WorldViewProjMatrix (driver w0) /\
  base (driver w1) = SampleBase_Initialize InitInfo (base (driver w0)).
Proof.
  destruct w0 as [d [bs os cs]]. cbv zeta.
  rewrite exec_Initialize. cbv zeta. cbn [driver engine buffers objects calls].
  split; [eexists; split; reflexivity |].
  split; [eexists; split; reflexivity |].
  split; [eexists; split; reflexivity |].
  repeat split.
Qed.

(** X5: [Initialize] issues nine calls in one order: the shader source
    factory, the vertex shader, the uniform buffer, the pixel shader, the
    pipeline state, the binding of the uniform buffer to the variable
    "Constants" of the vertex stage, the shader resource binding, the
    vertex buffer and the index buffer.  The variable is set on the
    pipeline the driver keeps, to the buffer the driver keeps, after both
    exist and before the resource binding is created from that pipeline
    with its static resources initialised. *)
Theorem Initialize_call_order (InitInfo : SampleInitInfo) (w0 : World) :
  let w1 := exec (Initialize InitInfo) w0 in
  exists vsci psci psoci cbd vbd ibd vdata idata,
    issued (Initialize InitInfo) w0 =
      [ EvCreateDefaultShaderSourceStreamFactory;
        EvCreateShader vsci;
        EvCreateBuffer cbd None;
        EvCreateShader psci;
        EvCreateGraphicsPipelineState psoci;
        EvSetStaticVariable (m_pPSO (driver w1)) SHADER_TYPE_VERTEX
          "Constants" (m_VSConstants (driver w1));
        EvCreateShaderResourceBinding (m_pPSO (driver w1)) true;
        EvCreateBuffer vbd (Some vdata);
        EvCreateBuffer ibd (Some idata) ] /\
    ShaderType vsci = SHADER_TYPE_VERTEX /\
    ShaderType psci = SHADER_TYPE_PIXEL /\
    BindFlags cbd = BIND_UNIFORM_BUFFER /\
    BindFlags vbd = BIND_VERTEX_BUFFER /\
    BindFlags ibd = BIND_INDEX_BUFFER /\
    DefaultVariableType psoci = SHADER_RESOURCE_VARIABLE_TYPE_STATIC /\
    is_Some (m_pPSO (driver w1)) /\ is_Some (m_VSConstants (driver w1)).
Proof.
  destruct w0 as [d [bs os cs]]. cbv zeta. unfold issued.
  rewrite exec_Initialize. cbv zeta. cbn [driver engine calls m_pPSO m_VSConstants].
  rewrite drop_app_length.
  do 8 eexists. split; [reflexivity |].
  repeat (split; [reflexivity |]). split; eexists; reflexivity.
Qed.

(** Setting up the facts about a world reached from [Initialize] by some
    frames: [Hw1] is the world left by [Initialize], [Hinv] the invariant
    of the buffers, [Ho] the table of objects and [Hpso] ... [Hsrb] the
    handle members. *)
Ltac lifecycle InitInfo w0 ts :=
  let d := fresh "d" in let bs := fresh "bs" in
  let os := fresh "os" in let cs := fresh "cs" in
  destruct w0 as [d [bs os cs]];
  pose proof (exec_Initialize InitInfo d bs os cs) as Hw1;
  pose proof (Initialize_frame_inv InitInfo
                {| driver := d;
                   engine := {| buffers := bs; objects := os; calls := cs |} |})
    as Hinit;
  cbv zeta in Hw1, Hinit; cbn [engine buffers] in Hinit;
  set (w1 := exec (Initialize InitInfo) _) in *;
  destruct (run_frames_inv _ _ _ _ _ _ ts w1 Hinit) as (Hinv & _);
  destruct (run_frames_static ts w1) as (Ho & _ & Hh);
  pose proof (f_equal (fun w => objects (engine w)) Hw1) as Ho1;
  pose proof (f_equal (fun w => handles_of (driver w)) Hw1) as Hh1;
  cbv beta in Ho1, Hh1;
  cbn [driver engine objects handles_of m_pPSO m_CubeVertexBuffer
       m_CubeIndexBuffer m_VSConstants m_pSRB] in Ho1, Hh1;
  rewrite Ho1 in Ho; rewrite Hh1 in Hh; clear Ho1 Hh1;
  unfold handles_of in Hh;
  injection Hh as Hpso Hvb Hib Hcb Hsrb;
  destruct Hinv as (_ & _ & _ & _ & _ & Hbv & Hbi & c & Hbc);
  replace (length bs + 1)%nat with (Datatypes.S (length bs)) in Hbv by lia;
  replace (length bs + 2)%nat
    with (Datatypes.S (Datatypes.S (length bs))) in Hbi by lia.

(** X6: at any time after [Initialize], the pipeline the driver keeps has
    the vertex shader as its vertex stage and the pixel shader as its pixel
    stage, and the two shaders were created with the same language, compile
    flags, macros, entry point and source factory, from cube.vsh and
    cube.psh. *)
Theorem pipeline_shaders_consistent (InitInfo : SampleInitInfo) (w0 : World)
    (ts : list (double * double)) :
  let w := run_frames ts (exec (Initialize InitInfo) w0) in
  exists p psoci ivs ips vsci psci f,
    m_pPSO (driver w) = Some p /\
    objects (engine w) !! p = Some (PipelineObj psoci) /\
    pVS psoci = Some ivs /\ pPS psoci = Some ips /\
    objects (engine w) !! ivs = Some (ShaderObj vsci) /\
    objects (engine w) !! ips = Some (ShaderObj psci) /\
    ShaderType vsci = SHADER_TYPE_VERTEX /\
    ShaderType psci = SHADER_TYPE_PIXEL /\
    FilePath vsci = "cube.vsh" /\ FilePath psci = "cube.psh" /\
    SourceLanguage vsci = SourceLanguage psci /\
    CompileFlags vsci = CompileFlags psci /\
    Macros vsci = Macros psci /\
    EntryPoint vsci = EntryPoint psci /\
    pShaderSourceStreamFactory vsci = Some f /\
    pShaderSourceStreamFactory psci = Some f /\
    objects (engine w) !! f = Some StreamFactoryObj.
Proof.
  lifecycle InitInfo w0 ts. cbv zeta.
  do 7 eexists.
  split; [exact Hpso |]. rewrite Ho.
  split; [lookup_at 3%nat |].
  split; [reflexivity |]. split; [reflexivity |].
  split; [lookup_at 1%nat |].
  split; [lookup_at 2%nat |].
  repeat (split; [reflexivity |]).
  lookup_at 0%nat.
Qed.

(** X7: after a frame the uniform buffer holds the transform of that
    frame.  Whatever frames came before, once [Update] and [Render] have
    run for a time t, the buffer named by the constants member contains the
    matrix in the transform member, and that matrix is the product computed
    for t. *)
Theorem uniform_buffer_holds_frame_transform (InitInfo : SampleInitInfo)
    (w0 : World) (ts : list (double * double)) (t : double * double) :
  let w := exec (frame t) (run_frames ts (exec (Initialize InitInfo) w0)) in
  let b := base (driver w) in
  exists icb buf,
    m_VSConstants (driver w) = Some icb /\
    buffers (engine w) !! icb = Some buf /\
    buf_data buf = MatrixData (m_WorldViewProjMatrix (driver w)) /\
    m_WorldViewProjMatrix (driver w) =
      RotationY (fmul (float_of_double (fst t)) (float_lit 0.5))
      ** RotationX (fmul (fneg PI_F) (float_lit 0.1))
      ** View_matrix ** SrfPreTransform_matrix b ** Proj_matrix b.
Proof.
  lifecycle InitInfo w0 ts. cbv zeta.
  unfold frame. rewrite exec_seq, exec_Render, exec_Update. cbv zeta.
  cbn [driver engine buffers set_m_WorldViewProjMatrix set_base base
       m_VSConstants m_WorldViewProjMatrix].
  rewrite Hcb. unfold store_buffer.
  do 2 eexists. split; [reflexivity |].
  split; [rewrite list_lookup_alter_eq, Hbc; reflexivity |].
  split; reflexivity.
Qed.

(** X8: at any time after [Initialize], [Render] binds what [Initialize]
    created: slot 0 gets the buffer created as a vertex buffer, which holds
    [CubeVerts]; the index buffer is the one created as an index buffer,
    which holds [Indices]; the pipeline set is a graphics pipeline of the
    engine; and the resources committed are the binding that was created
    from that very pipeline. *)
Theorem Render_binds_created_objects (InitInfo : SampleInitInfo) (w0 : World)
    (ts : list (double * double)) :
  let w := run_frames ts (exec (Initialize InitInfo) w0) in
  exists ivb iib p s bv bi psoci mode flags,
    In (EvSetVertexBuffers 0 1 [Some ivb] [0] mode flags) (issued Render w) /\
    In (EvSetIndexBuffer (Some iib) 0 mode) (issued Render w) /\
    In (EvSetPipelineState (Some p)) (issued Render w) /\
    In (EvCommitShaderResources (Some s) mode) (issued Render w) /\
    buffers (engine w) !! ivb = Some bv /\
    BindFlags (buf_desc bv) = BIND_VERTEX_BUFFER /\
    buf_data bv = VertexArray CubeVerts /\
    buffers (engine w) !! iib = Some bi /\
    BindFlags (buf_desc bi) = BIND_INDEX_BUFFER /\
    buf_data bi = IndexArray Indices /\
    objects (engine w) !! p = Some (PipelineObj psoci) /\
    PipelineType psoci = PIPELINE_TYPE_GRAPHICS /\
    objects (engine w) !! s = Some (BindingObj (Some p) true).
Proof.
  lifecycle InitInfo w0 ts. cbv zeta.
  rewrite issued_Render. unfold spec_Render_steps.
  rewrite Hpso, Hvb, Hib, Hcb, Hsrb, Ho.
  do 9 eexists.
  split; [in_list |]. split; [in_list |]. split; [in_list |].
  split; [in_list |].
  split; [exact Hbv |]. split; [reflexivity |]. split; [reflexivity |].
  split; [exact Hbi |]. split; [reflexivity |]. split; [reflexivity |].
  split; [lookup_at 3%nat |]. split; [reflexivity |].
  lookup_at 4%nat.
Qed.

(** X9: the input layout of the pipeline matches the vertex buffer, as the
    comment on [struct Vertex] says.  At any time after [Initialize], the
    pipeline set by [Render] reads two float attributes, 3 and 4 components
    wide, from the slot in which [Render] binds the vertex buffer; packed,
    they take [sizeof(Vertex)] bytes, and the size of the bound buffer is
    that stride times the number of vertices it holds. *)
Theorem layout_matches_vertex_buffer (InitInfo : SampleInitInfo) (w0 : World)
    (ts : list (double * double)) :
  let w := run_frames ts (exec (Initialize InitInfo) w0) in
  exists p psoci ivb bv vs slot mode flags,
    In (EvSetPipelineState (Some p)) (issued Render w) /\
    objects (engine w) !! p = Some (PipelineObj psoci) /\
    In (EvSetVertexBuffers slot 1 [Some ivb] [0] mode flags) (issued Render w) /\
    buffers (engine w) !! ivb = Some bv /\
    buf_data bv = VertexArray vs /\
    NumElements psoci = N.of_nat (length (LayoutElements psoci)) /\
    Forall (fun e => BufferSlot e = slot /\ ValueType e = VT_FLOAT32)
      (LayoutElements psoci) /\
    map InputIndex (LayoutElements psoci) = [0; 1] /\
    map NumComponents (LayoutElements psoci) = [3; 4] /\
    layout_stride (LayoutElements psoci) = sizeof_Vertex /\
    Size (buf_desc bv)
      = N.of_nat (length vs) * layout_stride (LayoutElements psoci).
Proof.
  lifecycle InitInfo w0 ts. cbv zeta.
  rewrite issued_Render. unfold spec_Render_steps.
  rewrite Hpso, Hvb, Hib, Hcb, Hsrb, Ho.
  do 8 eexists.
  split; [in_list |]. split; [lookup_at 3%nat |].
  split; [in_list |]. split; [exact Hbv |].
  split; [reflexivity |]. split; [reflexivity |].
  split; [repeat (apply Forall_cons; split; [split; reflexivity |]);
          apply Forall_nil_2 |].
  repeat split.
Qed.

(** X10: the draw stays inside the bound buffers.  At any time after
    [Initialize], the one draw call of [Render] asks for as many indices as
    the bound index buffer holds, of the width the buffer was sized for;
    every one of those indices names a vertex of the buffer bound in slot
    0; and the count is a whole number of triangles for the triangle-list
    pipeline that is set. *)
Theorem draw_within_bounds (InitInfo : SampleInitInfo) (w0 : World)
    (ts : list (double * double)) :
  let w := run_frames ts (exec (Initialize InitInfo) w0) in
  exists attribs iib bi ixs ivb bv vs p psoci mode flags,
    List.filter is_draw (issued Render w) = [EvDrawIndexed attribs] /\
    In (EvSetIndexBuffer (Some iib) 0 mode) (issued Render w) /\
    buffers (engine w) !! iib = Some bi /\
    buf_data bi = IndexArray ixs /\
    NumIndices attribs = N.of_nat (length ixs) /\
    NumIndices attribs * sizeof_VALUE_TYPE (IndexType attribs)
      = Size (buf_desc bi) /\
    In (EvSetVertexBuffers 0 1 [Some ivb] [0] mode flags) (issued Render w) /\
    buffers (engine w) !! ivb = Some bv /\
    buf_data bv = VertexArray vs /\
    Forall (fun i => (N.to_nat i < length vs)%nat) ixs /\
    In (EvSetPipelineState (Some p)) (issued Render w) /\
    objects (engine w) !! p = Some (PipelineObj psoci) /\
    PrimitiveTopology psoci = PRIMITIVE_TOPOLOGY_TRIANGLE_LIST /\
    (NumIndices attribs mod 3 = 0)%N.
Proof.
  lifecycle InitInfo w0 ts. cbv zeta.
  rewrite issued_Render. unfold spec_Render_steps.
  rewrite Hpso, Hvb, Hib, Hcb, Hsrb, Ho.
  do 11 eexists.
  split; [reflexivity |]. split; [in_list |].
  split; [exact Hbi |]. split; [reflexivity |].
  split; [reflexivity |]. split; [reflexivity |].
  split; [in_list |]. split; [exact Hbv |]. split; [reflexivity |].
  split.
  { unfold Indices.
    repeat (apply Forall_cons; split; [cbv; lia |]).
    apply Forall_nil_2. }
  split; [in_list |]. split; [lookup_at 3%nat |].
  split; reflexivity.
Qed.

(** X11: the buffer written each frame is the dynamic buffer bound to the
    shader.  At any time after [Initialize], the only buffer [Render] maps
    is mapped for writing with the discard flag and unmapped again; it was
    created dynamic, CPU-writable and as a uniform buffer; and it is the
    buffer that [Initialize] set as the variable "Constants" of the vertex
    stage of the pipeline that [Render] sets. *)
Theorem map_targets_dynamic_constants (InitInfo : SampleInitInfo)
    (w0 : World) (ts : list (double * double)) :
  let w := run_frames ts (exec (Initialize InitInfo) w0) in
  exists icb b p,
    List.filter is_map (issued Render w)
      = [EvMapBuffer (Some icb) MAP_WRITE MAP_FLAG_DISCARD] /\
    In (EvUnmapBuffer (Some icb) MAP_WRITE) (issued Render w) /\
    buffers (engine w) !! icb = Some b /\
    Usage (buf_desc b) = USAGE_DYNAMIC /\
    CPUAccessFlags (buf_desc b) = CPU_ACCESS_WRITE /\
    BindFlags (buf_desc b) = BIND_UNIFORM_BUFFER /\
    In (EvSetStaticVariable (Some p) SHADER_TYPE_VERTEX "Constants" (Some icb))
       (issued (Initialize InitInfo) w0) /\
    In (EvSetPipelineState (Some p)) (issued Render w).
Proof.
  lifecycle InitInfo w0 ts. cbv zeta.
  rewrite issued_Render. unfold spec_Render_steps.
  rewrite Hpso, Hvb, Hib, Hcb, Hsrb.
  pose proof (f_equal (fun w => calls (engine w)) Hw1) as Hc1.
  cbv beta in Hc1. cbn [engine calls] in Hc1.
  unfold issued. fold w1. cbn [engine calls]. rewrite Hc1, drop_app_length.
  do 3 eexists.
  split; [reflexivity |]. split; [in_list |].
  split; [exact Hbc |].
  repeat (split; [reflexivity |]).
  split; in_list.
Qed.

Lemma run_frames_gamma (ts : list (double * double)) :
  (forall t e b,
     m_ConvertPSOutputToGamma (SampleBase_Update t e b)
       = m_ConvertPSOutputToGamma b) ->
  forall w : World,
  m_ConvertPSOutputToGamma (base (driver (run_frames ts w)))
    = m_ConvertPSOutputToGamma (base (driver w)).
Proof.
  intros Hflag. induction ts as [| t ts IH]; intros w.
  - rewrite run_frames_nil. reflexivity.
  - rewrite run_frames_cons, IH.
    unfold frame. rewrite exec_seq, exec_Render, exec_Update.
    cbn [driver base set_m_WorldViewProjMatrix set_base].
    apply Hflag.
Qed.

(** X12: the shaders and the clear colour agree on gamma.  If the base
    class's [Update] keeps the gamma flag, then at any time after
    [Initialize] there is one value g of the flag such that both shaders
    were given the macro CONVERT_PS_OUTPUT_TO_GAMMA as "1" when g holds and
    "0" otherwise, and [Render] clears the render target with the sRGB
    image of the grey when g holds and with the grey itself otherwise. *)
Theorem gamma_macro_matches_clear (InitInfo : SampleInitInfo) (w0 : World)
    (ts : list (double * double)) :
  (forall t e b,
     m_ConvertPSOutputToGamma (SampleBase_Update t e b)
       = m_ConvertPSOutputToGamma b) ->
  exists (g : bool) vsci psci rtv mode,
    In (EvCreateShader vsci) (issued (Initialize InitInfo) w0) /\
    ShaderType vsci = SHADER_TYPE_VERTEX /\
    In (EvCreateShader psci) (issued (Initialize InitInfo) w0) /\
    ShaderType psci = SHADER_TYPE_PIXEL /\
    Macros vsci
      = [("CONVERT_PS_OUTPUT_TO_GAMMA", if g then "1" else "0")] /\
    Macros psci
      = [("CONVERT_PS_OUTPUT_TO_GAMMA", if g then "1" else "0")] /\
    In (EvClearRenderTarget rtv
          (if g
           then LinearToSRGB
                  (mk_float4 (float_lit 0.350) (float_lit 0.350)
                             (float_lit 0.350) (float_lit 1.0))
           else mk_float4 (float_lit 0.350) (float_lit 0.350)
                          (float_lit 0.350) (float_lit 1.0))
          mode)
       (issued Render (run_frames ts (exec (Initialize InitInfo) w0))).
Proof.
  intros Hflag.
  pose proof (run_frames_gamma ts Hflag (exec (Initialize InitInfo) w0)) as Hg.
  lifecycle InitInfo w0 ts.
  pose proof (f_equal (fun w => m_ConvertPSOutputToGamma (base (driver w))) Hw1)
    as Hg1.
  cbv beta in Hg1. cbn [driver base] in Hg1. rewrite Hg1 in Hg.
  rewrite issued_Render. unfold spec_Render_steps. rewrite Hg.
  pose proof (f_equal (fun w => calls (engine w)) Hw1) as Hc1.
  cbv beta in Hc1. cbn [engine calls] in Hc1.
  unfold issued. fold w1. cbn [engine calls]. rewrite Hc1, drop_app_length.
  exists (m_ConvertPSOutputToGamma (SampleBase_Initialize InitInfo (base d))).
  do 4 eexists.
  split; [in_list |]. split; [reflexivity |].
  split; [cbn [In]; do 3 right; left; reflexivity |]. split; [reflexivity |].
  split; [reflexivity |]. split; [reflexivity |].
  in_list.
Qed.

(** X13: [Update] sees the time only through its conversion to [float].
    Two times that convert to the same [float] give the same matrix, when
    the surface pre-transform and the projection are the same. *)
Theorem Update_time_through_float (w1 w2 : World)
    (CurrTime1 CurrTime2 ElapsedTime1 ElapsedTime2 : double) :
  float_of_double CurrTime1 = float_of_double CurrTime2 ->
  SrfPreTransform_matrix
    (SampleBase_Update CurrTime1 ElapsedTime1 (base (driver w1))) =
  SrfPreTransform_matrix
    (SampleBase_Update CurrTime2 ElapsedTime2 (base (driver w2))) ->
  Proj_matrix (SampleBase_Update CurrTime1 ElapsedTime1 (base (driver w1))) =
  Proj_matrix (SampleBase_Update CurrTime2 ElapsedTime2 (base (driver w2))) ->
  m_WorldViewProjMatrix (driver (exec (Update CurrTime1 ElapsedTime1) w1)) =
  m_WorldViewProjMatrix (driver (exec (Update CurrTime2 ElapsedTime2) w2)).
Proof.
  intros Ht Hpre Hproj. rewrite !exec_Update.
  cbn [driver m_WorldViewProjMatrix set_m_WorldViewProjMatrix].
  rewrite Ht, Hpre, Hproj. reflexivity.
Qed.
End Lifecycle.

(** ** The hypotheses above, in exact arithmetic *)

Section RealLifecycle.
Import RealModel.
Local Open Scope R_scope.

(** The base class of the exact-arithmetic interpretation keeps the gamma
    flag: one frame after [Initialize] from the empty engine. *)
Lemma gamma_macro_matches_clear_witness :
  (forall t e b,
     m_ConvertPSOutputToGamma (SampleBase_Update t e b)
       = m_ConvertPSOutputToGamma b) /\
  exists (g : bool) vsci psci rtv mode,
    In (EvCreateShader vsci) (issued (Initialize (base0 : @SampleInitInfo real_scalars real_engine)) world0) /\
    ShaderType vsci = SHADER_TYPE_VERTEX /\
    In (EvCreateShader psci) (issued (Initialize (base0 : @SampleInitInfo real_scalars real_engine)) world0) /\
    ShaderType psci = SHADER_TYPE_PIXEL /\
    Macros vsci
      = [("CONVERT_PS_OUTPUT_TO_GAMMA", if g then "1" else "0")] /\
    Macros psci
      = [("CONVERT_PS_OUTPUT_TO_GAMMA", if g then "1" else "0")] /\
    In (EvClearRenderTarget rtv
          (if g
           then LinearToSRGB
                  (mk_float4 (float_lit 0.350) (float_lit 0.350)
                             (float_lit 0.350) (float_lit 1.0))
           else mk_float4 (float_lit 0.350) (float_lit 0.350)
                          (float_lit 0.350) (float_lit 1.0))
          mode)
       (issued Render
          (run_frames [(double_lit 1, double_lit 0)]
             (exec (Initialize (base0 : @SampleInitInfo real_scalars real_engine)) world0))).
Proof.
  split.
  - intros t e b. reflexivity.
  - apply (gamma_macro_matches_clear (base0 : @SampleInitInfo real_scalars real_engine) world0
             [(double_lit 1, double_lit 0)]).
    intros t e b. reflexivity.
Defined.
End RealLifecycle.

(** ** Two times with one [float] image *)

Section IEEELifecycle.
Import IEEEModel.

Lemma narrow_one64_next64 : narrow one64 = narrow next64.
Proof. vm_compute. reflexivity. Qed.

(** The binary64 times 1 and 1 + 2^-52 differ and both convert to the
    binary32 number 1; the two invocations also differ in the elapsed time
    and in the matrix left in the member. *)
Lemma Update_time_through_float_witness :
  one64 <> next64 /\
  (float_of_double one64 = float_of_double next64 /\
   SrfPreTransform_matrix
     (SampleBase_Update one64 (double_lit 0) (base (driver (ieee_world MIdentity)))) =
   SrfPreTransform_matrix
     (SampleBase_Update next64 (double_lit 1)
        (base (driver (ieee_world (MRotationX one64))))) /\
   Proj_matrix
     (SampleBase_Update one64 (double_lit 0) (base (driver (ieee_world MIdentity)))) =
   Proj_matrix
     (SampleBase_Update next64 (double_lit 1)
        (base (driver (ieee_world (MRotationX one64)))))) /\
  m_WorldViewProjMatrix
    (driver (exec (Update one64 (double_lit 0)) (ieee_world MIdentity))) =
  m_WorldViewProjMatrix
    (driver (exec (Update next64 (double_lit 1))
               (ieee_world (MRotationX one64)))).
Proof.
  split; [discriminate |].
  split.
  - split; [exact narrow_one64_next64 |]. split; reflexivity.
  - apply (Update_time_through_float
             (ieee_world MIdentity) (ieee_world (MRotationX one64))
             one64 next64 (double_lit 0) (double_lit 1)).
    + exact narrow_one64_next64.
    + reflexivity.
    + reflexivity.
Defined.
End IEEELifecycle.
